(** * haber-gpt: the trainer ([trainer.py]) as a shallow embedding

    The development follows [trainer.py] function by function.

    - Python [int]s are [Z]; the learning-rate arithmetic of [get_lr]
      ([math.cos], [math.pi], true division) is carried out in [R], the
      idealisation of Python's binary64 floats; loss values and timings,
      which the code stores, compares and smooths, are primitive binary64
      floats, so a NaN loss behaves as it does in Python.
    - Python exceptions are values of [exn]; a function that can raise lives
      in [result], and one that also touches the model object, the files, the
      random generator or the metrics service lives in the state-and-exception
      monad [M], where the state survives a raise (as a Python object does).
    - What PyTorch, the operating system and the metrics service supply is the
      interface [Backend]; the trainer code is written against it. *)

From Stdlib Require Import ZArith Reals Lra Lia List Floats.
From Stdlib Require Import DecimalString DecimalNat.
From Stdlib.Strings Require Import Byte Ascii.
From stdpp Require Import base option list gmap sets strings.

#[local] Set Warnings "-inexact-float".

Local Open Scope string_scope.
Local Open Scope Z_scope.

(** ** Python values and control *)

Inductive exn : Type :=
  | ZeroDivisionError
  | AssertionError
  | TypeError
  | KeyError
  | ValueError
  | RuntimeError
  | OverflowError
  | FileNotFoundError
  | ServiceError.

Inductive result (A : Type) : Type :=
  | Ok (a : A)
  | Raise (e : exn).

Arguments Ok {A} a.
Arguments Raise {A} e.

Definition is_ok {A} (r : result A) : bool :=
  match r with Ok _ => true | Raise _ => false end.

Definition result_map {A B} (f : A -> B) (r : result A) : result B :=
  match r with Ok a => Ok (f a) | Raise e => Raise e end.

(** Statements that run against a mutable state [S]: the state is returned
    also when the statement raises. *)
Definition M (S A : Type) : Type := S -> result A * S.

Definition ret {S A} (a : A) : M S A := fun s => (Ok a, s).

Definition raise {S A} (e : exn) : M S A := fun s => (Raise e, s).

Definition bind {S A B} (m : M S A) (k : A -> M S B) : M S B :=
  fun s => match m s with
           | (Ok a, s') => k a s'
           | (Raise e, s') => (Raise e, s')
           end.

Definition lift {S A} (r : result A) : M S A := fun s => (r, s).

Definition gets {S A} (f : S -> A) : M S A := fun s => (Ok (f s), s).

Definition modify {S} (f : S -> S) : M S unit := fun s => (Ok tt, f s).

Notation "x <- m ;; k" := (bind m (fun x => k))
  (at level 100, m at next level, right associativity).
Notation "m ;;; k" := (bind m (fun _ => k))
  (at level 100, right associativity).

(** [for x in xs: acc = body(acc, x)] *)
Fixpoint for_each {S A B} (body : B -> A -> M S B) (acc : B) (xs : list A) : M S B :=
  match xs with
  | [] => ret acc
  | x :: xs' => acc' <- body acc x ;; for_each body acc' xs'
  end.

(** A statement leaves the part [proj] of the state alone, whether it
    returns or raises. *)
Definition preserves {St T A} (proj : St -> T) (m : M St A) : Prop :=
  forall s, proj (snd (m s)) = proj s.

(** [range(lo, hi)] *)
Definition range (lo hi : Z) : list Z :=
  map (fun k => lo + Z.of_nat k) (seq 0 (Z.to_nat (hi - lo))).

(** [l[lo:hi]] with Python's treatment of negative and out-of-range bounds. *)
Definition slice_bound (len i : Z) : Z :=
  if i <? 0 then Z.max (i + len) 0 else Z.min i len.

Definition py_slice {A} (l : list A) (lo hi : Z) : list A :=
  let len := Z.of_nat (length l) in
  let lo' := slice_bound len lo in
  let hi' := slice_bound len hi in
  take (Z.to_nat (hi' - lo')) (drop (Z.to_nat lo') l).

(** [x / d] for a float [x] and an [int] [d]. *)
Definition true_div (x : R) (d : Z) : result R :=
  if d =? 0 then Raise ZeroDivisionError else Ok (x / IZR d)%R.

(** [a % b] on [int]s: the sign follows the divisor, as [Z.modulo] has it. *)
Definition py_mod (a b : Z) : result Z :=
  if b =? 0 then Raise ZeroDivisionError else Ok (a mod b).

(** [a // b] on [int]s: floor division, as [Z.div] has it. *)
Definition py_floordiv (a b : Z) : result Z :=
  if b =? 0 then Raise ZeroDivisionError else Ok (a / b).

(** The conversion of an [int] operand in mixed arithmetic: the nearest
    binary64 value, ties to even; an [int] beyond the binary64 range raises. *)
Definition float_of_int (n : Z) : result float :=
  match binary_normalize prec emax n 0 false with
  | S754_infinity _ => Raise OverflowError
  | sf => Ok (SF2Prim sf)
  end.

(** [os.path.join(a, b)] on POSIX, for two components. *)
Fixpoint ends_with_slash (s : string) : bool :=
  match s with
  | EmptyString => false
  | String c EmptyString => if Ascii.eqb c "/"%char then true else false
  | String _ s' => ends_with_slash s'
  end.

Definition starts_with_slash (s : string) : bool :=
  match s with
  | String c _ => if Ascii.eqb c "/"%char then true else false
  | EmptyString => false
  end.

Definition path_join (a b : string) : string :=
  if starts_with_slash b then b
  else if String.eqb a "" then b
  else if ends_with_slash a then a +:+ b
  else a +:+ "/" +:+ b.

(** ** Data model *)

Record TrainerConfig : Type := {
  seq_length : Z;
  batch_size : Z;
  data_dir : option string;
  warmup_iters : Z;
  learning_rate : R;
  lr_decay_iters : Z;
  max_iters : Z;
  min_lr : R;
  weight_decay : option R;
  beta1 : R;
  beta2 : R;
  compile : bool;
  decay_lr : bool;
  seed : Z;
  log_interval : Z;
  eval_interval : Z;
  eval_iters : Z;
  out_dir : string;
  wandb_log : bool;
  wandb_project : string;
  wandb_run_name : string;
  grad_norm_clip : R
}.

(** A parameter tensor: its identity as an object, its shape, and whether it
    takes part in gradient computation. *)
Record Param : Type := {
  pid : positive;
  shape : list Z;
  requires_grad : bool
}.

Definition dim (p : Param) : Z := Z.of_nat (length (shape p)).

Record ParamGroup : Type := {
  params : list Param;
  pg_weight_decay : option R;
  pg_lr : R;
  pg_betas : R * R
}.

(** A batch: the input rows and the target rows. *)
Definition Batch : Type := list (list Z) * list (list Z).

(** The default generator: the stream of raw words a seed gives, and how many
    of them were consumed. *)
Record Generator : Type := {
  stream : nat -> Z;
  cursor : nat
}.

Record MetricsRecord : Type := {
  m_iter : Z;
  m_train_loss : float;
  m_val_loss : float;
  m_lr : R;
  m_tokens_per_sec : float
}.

(** What the tensor library, the clock and the metrics service supply. *)
Class Backend : Type := {
  (** parameter values of the model, and the optimizer's moment estimates *)
  Weights : Type;
  OptState : Type;
  init_opt_state : OptState;
  (** [model(X, Y)] under autocast, read back with [loss.item()]; the flag is
      [model.training] *)
  forward : Weights -> bool -> list (list Z) -> list (list Z) -> result float;
  (** [zero_grad], [loss.backward()], [clip_grad_norm_], [optimizer.step()] *)
  backward_step :
    R -> list ParamGroup -> Weights -> OptState ->
    list (list Z) -> list (list Z) -> Weights * OptState;
  (** [tensor.mean()] of a one-dimensional float tensor *)
  tensor_mean : list float -> float;
  (** [torch.manual_seed] *)
  seeded : Z -> nat -> Z;
  (** the bytes [torch.save] writes for a checkpoint *)
  pickle :
    Weights -> list ParamGroup * OptState -> Z -> float -> list byte;
  (** [wandb.init] and [wandb.log] *)
  wandb_init : TrainerConfig -> result unit;
  wandb_push : MetricsRecord -> result unit;
  (** [t1 - t0] measured around the step of an iteration, and around the
      evaluation of an iteration *)
  elapsed : Z -> float;
  eval_elapsed : Z -> float;
  (** [datetime.timedelta(seconds=eta)] and its formatting *)
  timedelta : float -> result unit
}.

(** The model object ([nn.Module]): its mode flag, the sequence length of its
    configuration, what [named_parameters()] yields, and the parameter
    values. *)
Record Module_ `{Backend} : Type := {
  training : bool;
  config_seq_length : Z;
  named_parameters : list (string * Param);
  weights : Weights
}.

Record Optimizer `{Backend} : Type := {
  param_groups : list ParamGroup;
  opt_state : OptState
}.

(** The dictionary [do_eval] hands to [torch.save]. *)
Record Checkpoint `{Backend} : Type := {
  ck_model : Weights;
  ck_optimizer : list ParamGroup * OptState;
  ck_iter_num : Z;
  ck_best_val_loss : float
}.

(** Calls that leave the process, in the order they were made. *)
Inductive Event `{Backend} : Type :=
  | EvMakedirs (path : string)
  | EvSave (path : string) (c : Checkpoint)
  | EvMetrics (r : MetricsRecord).

(** Everything the trainer reads and mutates. *)
Record World `{Backend} : Type := {
  w_model : Module_;
  w_files : gmap string (list byte);
  w_dirs : gset string;
  w_gen : Generator;
  w_trace : list Event
}.

(** The part of the world that sampling a batch does not touch. *)
Definition stable `{Backend} (w : World) :=
  (w_model w, w_files w, w_dirs w, w_trace w).

(** The checkpoints [torch.save] was called with, oldest first. *)
Fixpoint saved `{Backend} (tr : list Event) : list (string * Checkpoint) :=
  match tr with
  | [] => []
  | EvSave path c :: tr' => (path, c) :: saved tr'
  | _ :: tr' => saved tr'
  end.

Section Trainer.
Context `{B : Backend}.

Definition set_model (m : Module_) (w : World) : World :=
  {| w_model := m; w_files := w_files w; w_dirs := w_dirs w;
     w_gen := w_gen w; w_trace := w_trace w |}.

Definition set_files (fs : gmap string (list byte)) (w : World) : World :=
  {| w_model := w_model w; w_files := fs; w_dirs := w_dirs w;
     w_gen := w_gen w; w_trace := w_trace w |}.

Definition set_dirs (ds : gset string) (w : World) : World :=
  {| w_model := w_model w; w_files := w_files w; w_dirs := ds;
     w_gen := w_gen w; w_trace := w_trace w |}.

Definition set_gen (g : Generator) (w : World) : World :=
  {| w_model := w_model w; w_files := w_files w; w_dirs := w_dirs w;
     w_gen := g; w_trace := w_trace w |}.

Definition emit (e : Event) (w : World) : World :=
  {| w_model := w_model w; w_files := w_files w; w_dirs := w_dirs w;
     w_gen := w_gen w; w_trace := w_trace w ++ [e] |}.

(** [model.train()] and [model.eval()] *)
Definition set_training (b : bool) : M World unit :=
  modify (fun w =>
    set_model {| training := b;
                 config_seq_length := config_seq_length (w_model w);
                 named_parameters := named_parameters (w_model w);
                 weights := weights (w_model w) |} w).

Definition set_weights (ws : Weights) : M World unit :=
  modify (fun w =>
    set_model {| training := training (w_model w);
                 config_seq_length := config_seq_length (w_model w);
                 named_parameters := named_parameters (w_model w);
                 weights := ws |} w).

(** ** Library calls the trainer makes *)

(** Little-endian unsigned 16-bit tokens. *)
Fixpoint decode_uint16 (bs : list byte) : list Z :=
  match bs with
  | b0 :: b1 :: rest =>
      (Z.of_N (Byte.to_N b0) + 256 * Z.of_N (Byte.to_N b1)) :: decode_uint16 rest
  | _ => []
  end.

(** [np.memmap(path, dtype=np.uint16, mode='r')] *)
Definition np_memmap_uint16 (fs : gmap string (list byte)) (path : string)
  : result (list Z) :=
  match fs !! path with
  | None => Raise FileNotFoundError
  | Some [] => Raise ValueError
  | Some bs => if Nat.odd (length bs) then Raise ValueError
               else Ok (decode_uint16 bs)
  end.

(** The next [k] raw words of the generator, each reduced into [0, high). *)
Definition draw (g : Generator) (high : Z) (k : nat) : list Z :=
  map (fun j => stream g (cursor g + j)%nat mod high) (seq 0 k).

Definition advance (g : Generator) (k : nat) : Generator :=
  {| stream := stream g; cursor := (cursor g + k)%nat |}.

(** [torch.randint(high, (n,))] *)
Definition torch_randint (high n : Z) : M World (list Z) :=
  if high <=? 0 then raise RuntimeError
  else if n <? 0 then raise RuntimeError
  else fun w =>
    (Ok (draw (w_gen w) high (Z.to_nat n)),
     set_gen (advance (w_gen w) (Z.to_nat n)) w).

(** [torch.stack] of one-dimensional rows. *)
Definition torch_stack (rows : list (list Z)) : result (list (list Z)) :=
  match rows with
  | [] => Raise RuntimeError
  | r :: _ =>
      if forallb (fun r' => Nat.eqb (length r') (length r)) rows
      then Ok rows else Raise RuntimeError
  end.

(** [torch.zeros(n)] *)
Definition torch_zeros (n : Z) : result (list float) :=
  if n <? 0 then Raise RuntimeError else Ok (replicate (Z.to_nat n) 0%float).

(** [os.path.exists] *)
Definition path_exists (p : string) (w : World) : bool :=
  bool_decide (p ∈ w_dirs w) || bool_decide (is_Some (w_files w !! p)).

(** [os.makedirs]; only the named directory is tracked. *)
Definition os_makedirs (p : string) : M World unit :=
  modify (fun w => emit (EvMakedirs p) (set_dirs ({[p]} ∪ w_dirs w) w)).

(** [torch.save(checkpoint, path)] *)
Definition torch_save (c : Checkpoint) (path : string) : M World unit :=
  modify (fun w =>
    emit (EvSave path c)
      (set_files
         (<[path := pickle (ck_model c) (ck_optimizer c)
                      (ck_iter_num c) (ck_best_val_loss c)]> (w_files w)) w)).

(** [wandb.log(record)] *)
Definition wandb_log_call (r : MetricsRecord) : M World unit :=
  lift (wandb_push r) ;;; modify (emit (EvMetrics r)).

(** [d[k] = v] on an insertion-ordered dictionary. *)
Fixpoint dict_set {V} (d : list (string * V)) (k : string) (v : V)
  : list (string * V) :=
  match d with
  | [] => [(k, v)]
  | (k', v') :: d' =>
      if String.eqb k' k then (k', v) :: d' else (k', v') :: dict_set d' k v
  end.

(** [{k: v for k, v in pairs}] *)
Definition dict_of {V} (pairs : list (string * V)) : list (string * V) :=
  fold_left (fun d kv => dict_set d (fst kv) (snd kv)) pairs [].

(** [d[k]] on the dictionary [estimate_loss] returns. *)
Definition dict_get (d : gmap string float) (k : string) : result float :=
  match d !! k with
  | Some v => Ok v
  | None => Raise KeyError
  end.

(** ** [Trainer] *)

(** [Trainer.get_batch] *)
Definition get_batch (cfg : TrainerConfig) (split : string) : M World Batch :=
  d <- match data_dir cfg with
       | Some d => ret d
       | None => raise TypeError
       end ;;
  data <- (fun w =>
             (np_memmap_uint16 (w_files w)
                (path_join d (if String.eqb split "train" then "train.bin"
                              else "val.bin")), w)) ;;
  ix <- torch_randint (Z.of_nat (length data) - seq_length cfg) (batch_size cfg) ;;
  x <- lift (torch_stack
               (map (fun i => py_slice data i (i + seq_length cfg)) ix)) ;;
  y <- lift (torch_stack
               (map (fun i => py_slice data (i + 1) (i + 1 + seq_length cfg)) ix)) ;;
  ret (x, y).

(** [Trainer.get_lr] *)
Definition get_lr (cfg : TrainerConfig) (it : Z) : result R :=
  if it <? warmup_iters cfg then
    true_div (learning_rate cfg * IZR it) (warmup_iters cfg)
  else if it >? lr_decay_iters cfg then
    Ok (min_lr cfg)
  else
    match true_div (IZR (it - warmup_iters cfg))
                   (lr_decay_iters cfg - warmup_iters cfg) with
    | Raise e => Raise e
    | Ok decay_ratio =>
        if Rle_dec 0 decay_ratio then
          if Rle_dec decay_ratio 1 then
            let coeff := (0.5 * (1 + cos (PI * decay_ratio)))%R in
            Ok (min_lr cfg + coeff * (learning_rate cfg - min_lr cfg))%R
          else Raise AssertionError
        else Raise AssertionError
    end.

Definition set_group_lr (lr : R) (g : ParamGroup) : ParamGroup :=
  {| params := params g; pg_weight_decay := pg_weight_decay g;
     pg_lr := lr; pg_betas := pg_betas g |}.

(** [Trainer.update_lr]; the optimizer after the call is returned with the
    rate. *)
Definition update_lr (cfg : TrainerConfig) (it : Z) (optimizer : Optimizer)
  : result (R * Optimizer) :=
  if negb (decay_lr cfg) then Ok (learning_rate cfg, optimizer)
  else
    match get_lr cfg it with
    | Raise e => Raise e
    | Ok lr =>
        Ok (lr, {| param_groups := map (set_group_lr lr) (param_groups optimizer);
                   opt_state := opt_state optimizer |})
    end.

(** [Trainer._configure_optimizers]; the two diagnostic [print]s are left out. *)
Definition _configure_optimizers (cfg : TrainerConfig) (model : Module_)
  : Optimizer :=
  let param_dict := dict_of (named_parameters model) in
  let param_dict := List.filter (fun np => requires_grad (snd np)) param_dict in
  let decay_params :=
    map snd (List.filter (fun np => dim (snd np) >=? 2) param_dict) in
  let nodecay_params :=
    map snd (List.filter (fun np => dim (snd np) <? 2) param_dict) in
  let betas := (beta1 cfg, beta2 cfg) in
  {| param_groups :=
       [ {| params := decay_params; pg_weight_decay := weight_decay cfg;
            pg_lr := learning_rate cfg; pg_betas := betas |};
         {| params := nodecay_params; pg_weight_decay := Some 0%R;
            pg_lr := learning_rate cfg; pg_betas := betas |} ];
     opt_state := init_opt_state |}.

(** [Trainer._init_logging] *)
Definition _init_logging (cfg : TrainerConfig) : M World unit :=
  if wandb_log cfg then lift (wandb_init cfg) else ret tt.

(** [_, loss = model(X, Y)] on the model object of the world. *)
Definition model_call (X Y : list (list Z)) : M World float :=
  fun w => (forward (weights (w_model w)) (training (w_model w)) X Y, w).

(** [Trainer.estimate_loss]. The gradient-mode and autocast scopes around the
    forward pass carry no state of this embedding. *)
Definition estimate_loss (cfg : TrainerConfig) : M World (gmap string float) :=
  set_training false ;;;
  out <- for_each
           (fun (out : gmap string float) (split : string) =>
              losses <- lift (torch_zeros (eval_iters cfg)) ;;
              losses <- for_each
                          (fun (losses : list float) (k : Z) =>
                             b <- get_batch cfg split ;;
                             loss <- model_call (fst b) (snd b) ;;
                             ret (<[Z.to_nat k := loss]> losses))
                          losses (range 0 (eval_iters cfg)) ;;
              ret (<[split := tensor_mean losses]> out))
           ∅ ["train"; "val"] ;;
  set_training true ;;;
  ret out.

(** [Trainer.do_eval]. Of the report line only what can raise is kept: the
    ETA arithmetic and the [timedelta] it is handed to. Like the source, the
    function returns nothing. *)
Definition do_eval (cfg : TrainerConfig) (optimizer : Optimizer)
    (best_val_loss running_fwd_bwd_tokens_per_sec time_per_iter : float)
    (iter : Z) (lr : R) : M World unit :=
  losses <- estimate_loss cfg ;;
  (if wandb_log cfg then
     train_loss <- lift (dict_get losses "train") ;;
     val_loss <- lift (dict_get losses "val") ;;
     wandb_log_call {| m_iter := iter; m_train_loss := train_loss;
                       m_val_loss := val_loss; m_lr := lr;
                       m_tokens_per_sec := running_fwd_bwd_tokens_per_sec |}
   else ret tt) ;;;
  val_loss <- lift (dict_get losses "val") ;;
  (if (val_loss <? best_val_loss)%float then
    let best_val_loss := val_loss in
    if iter >? 0 then
      ws <- gets (fun w => weights (w_model w)) ;;
      let checkpoint :=
        {| ck_model := ws;
           ck_optimizer := (param_groups optimizer, opt_state optimizer);
           ck_iter_num := iter;
           ck_best_val_loss := best_val_loss |} in
      ex <- gets (path_exists (out_dir cfg)) ;;
      (if negb ex then os_makedirs (out_dir cfg) else ret tt) ;;;
      torch_save checkpoint (path_join (out_dir cfg) "ckpt.pt")
    else ret tt
  else ret tt) ;;;
  let dt := eval_elapsed iter in
  eta <- (if (0 <? running_fwd_bwd_tokens_per_sec)%float then
            let rem_iters := max_iters cfg - iter in
            rem_iters_f <- lift (float_of_int rem_iters) ;;
            let rem_fwd_bwd_time := (rem_iters_f * time_per_iter)%float in
            rem_evals <- lift (py_floordiv rem_iters (eval_interval cfg)) ;;
            rem_evals_f <- lift (float_of_int rem_evals) ;;
            let rem_evals_time := (dt * rem_evals_f)%float in
            ret (rem_fwd_bwd_time + rem_evals_time)%float
          else ret 0%float) ;;
  lift (timedelta eta).

(** The three stages of [do_eval] after the losses are known, named so that
    they can be reasoned about one at a time ([do_eval_stages] below shows
    that [do_eval] is their sequence). *)
Definition metrics_stage (cfg : TrainerConfig) (losses : gmap string float)
    (running_fwd_bwd_tokens_per_sec : float) (iter : Z) (lr : R)
  : M World unit :=
  if wandb_log cfg then
    train_loss <- lift (dict_get losses "train") ;;
    val_loss <- lift (dict_get losses "val") ;;
    wandb_log_call {| m_iter := iter; m_train_loss := train_loss;
                      m_val_loss := val_loss; m_lr := lr;
                      m_tokens_per_sec := running_fwd_bwd_tokens_per_sec |}
  else ret tt.

Definition checkpoint_stage (cfg : TrainerConfig) (optimizer : Optimizer)
    (best_val_loss val_loss : float) (iter : Z) : M World unit :=
  if (val_loss <? best_val_loss)%float then
    let best_val_loss := val_loss in
    if iter >? 0 then
      ws <- gets (fun w => weights (w_model w)) ;;
      let checkpoint :=
        {| ck_model := ws;
           ck_optimizer := (param_groups optimizer, opt_state optimizer);
           ck_iter_num := iter;
           ck_best_val_loss := best_val_loss |} in
      ex <- gets (path_exists (out_dir cfg)) ;;
      (if negb ex then os_makedirs (out_dir cfg) else ret tt) ;;;
      torch_save checkpoint (path_join (out_dir cfg) "ckpt.pt")
    else ret tt
  else ret tt.

Definition report_stage (cfg : TrainerConfig)
    (running_fwd_bwd_tokens_per_sec time_per_iter : float) (iter : Z)
  : M World unit :=
  let dt := eval_elapsed iter in
  eta <- (if (0 <? running_fwd_bwd_tokens_per_sec)%float then
            let rem_iters := max_iters cfg - iter in
            rem_iters_f <- lift (float_of_int rem_iters) ;;
            let rem_fwd_bwd_time := (rem_iters_f * time_per_iter)%float in
            rem_evals <- lift (py_floordiv rem_iters (eval_interval cfg)) ;;
            rem_evals_f <- lift (float_of_int rem_evals) ;;
            let rem_evals_time := (dt * rem_evals_f)%float in
            ret (rem_fwd_bwd_time + rem_evals_time)%float
          else ret 0%float) ;;
  lift (timedelta eta).

(** The variables of the loop in [Trainer.train]. *)
Record LoopVars : Type := {
  lv_X : list (list Z);
  lv_Y : list (list Z);
  lv_optimizer : Optimizer;
  best_val_loss : float;
  running_fwd_bwd_tokens_per_sec : float;
  running_iter_time : float
}.

(** One pass through the body of the [for iter in range(...)] loop. *)
Definition train_iter (cfg : TrainerConfig) (v : LoopVars) (iter : Z)
  : M World LoopVars :=
  lo <- lift (update_lr cfg iter (lv_optimizer v)) ;;
  let lr := fst lo in
  let optimizer := snd lo in
  r <- lift (py_mod iter (eval_interval cfg)) ;;
  (if r =? 0 then
     do_eval cfg optimizer (best_val_loss v)
       (running_fwd_bwd_tokens_per_sec v) (running_iter_time v) iter lr
   else ret tt) ;;;
  _loss <- model_call (lv_X v) (lv_Y v) ;;
  b <- get_batch cfg "train" ;;
  ws <- gets (fun w => weights (w_model w)) ;;
  let stepped :=
    backward_step (grad_norm_clip cfg) (param_groups optimizer) ws
      (opt_state optimizer) (lv_X v) (lv_Y v) in
  set_weights (fst stepped) ;;;
  let optimizer :=
    {| param_groups := param_groups optimizer; opt_state := snd stepped |} in
  r <- lift (py_mod iter (log_interval cfg)) ;;
  if r =? 0 then
    let dt := elapsed iter in
    let fwd_bwd_tokens := batch_size cfg * seq_length cfg in
    if (dt =? 0)%float then raise ZeroDivisionError
    else
      fwd_bwd_tokens_f <- lift (float_of_int fwd_bwd_tokens) ;;
      let fwd_bwd_tokens_per_sec :=
        (fwd_bwd_tokens_f * (1 / dt))%float in
      if (running_fwd_bwd_tokens_per_sec v =? 0)%float then
        ret {| lv_X := fst b; lv_Y := snd b; lv_optimizer := optimizer;
               best_val_loss := best_val_loss v;
               running_fwd_bwd_tokens_per_sec := fwd_bwd_tokens_per_sec;
               running_iter_time := dt |}
      else
        ret {| lv_X := fst b; lv_Y := snd b; lv_optimizer := optimizer;
               best_val_loss := best_val_loss v;
               running_fwd_bwd_tokens_per_sec :=
                 (0.9 * running_fwd_bwd_tokens_per_sec v
                  + 0.1 * fwd_bwd_tokens_per_sec)%float;
               running_iter_time :=
                 (0.9 * running_iter_time v + 0.1 * dt)%float |}
  else
    ret {| lv_X := fst b; lv_Y := snd b; lv_optimizer := optimizer;
           best_val_loss := best_val_loss v;
           running_fwd_bwd_tokens_per_sec := running_fwd_bwd_tokens_per_sec v;
           running_iter_time := running_iter_time v |}.

(** [Trainer.train]; [torch.compile] leaves what the model computes unchanged
    and is the identity here. The loop variables at exit are returned so that
    they can be inspected. *)
Definition train (cfg : TrainerConfig) : M World LoopVars :=
  model <- gets w_model ;;
  if negb (seq_length cfg =? config_seq_length model) then raise AssertionError
  else
    modify (set_gen {| stream := seeded (seed cfg); cursor := 0 |}) ;;;
    _init_logging cfg ;;;
    let optimizer := _configure_optimizers cfg model in
    set_training true ;;;
    b <- get_batch cfg "train" ;;
    for_each (train_iter cfg)
      {| lv_X := fst b; lv_Y := snd b; lv_optimizer := optimizer;
         best_val_loss := 1e9; running_fwd_bwd_tokens_per_sec := 0;
         running_iter_time := 0 |}
      (range 0 (max_iters cfg + 1)).

End Trainer.

(** ** Configurations used as concrete inputs *)

(** The defaults of the [TrainerConfig] dataclass, with the rates as exact
    decimals. *)
Definition default_config : TrainerConfig :=
  {| seq_length := 1024; batch_size := 64; data_dir := None;
     warmup_iters := 100; learning_rate := (1 / 10000)%R;
     lr_decay_iters := 5000; max_iters := 5000; min_lr := (1 / 1000000)%R;
     weight_decay := None; beta1 := (9 / 10)%R; beta2 := (95 / 100)%R;
     compile := false; decay_lr := true; seed := 145; log_interval := 10;
     eval_interval := 250; eval_iters := 200; out_dir := "out";
     wandb_log := false; wandb_project := "GPT Training";
     wandb_run_name := "run1"; grad_norm_clip := 1%R |}.

(** The defaults with the decay horizon pulled down onto the warmup length:
    [warmup_iters = lr_decay_iters = 100]. *)
Definition flat_config : TrainerConfig :=
  {| seq_length := 1024; batch_size := 64; data_dir := None;
     warmup_iters := 100; learning_rate := (1 / 10000)%R;
     lr_decay_iters := 100; max_iters := 5000; min_lr := (1 / 1000000)%R;
     weight_decay := None; beta1 := (9 / 10)%R; beta2 := (95 / 100)%R;
     compile := false; decay_lr := true; seed := 145; log_interval := 10;
     eval_interval := 250; eval_iters := 200; out_dir := "out";
     wandb_log := false; wandb_project := "GPT Training";
     wandb_run_name := "run1"; grad_norm_clip := 1%R |}.

(** A small stand-in for the tensor library: the weights are the number of
    optimizer steps taken so far, the loss is a table over that number, the
    mean is the binary64 arithmetic mean, a seed [s] gives the raw words
    [s, s+1, ...], a checkpoint is written as the low byte of its iteration
    number, and the metrics service accepts every record. *)
Definition toy_loss (steps : nat) : float :=
  match steps with
  | O => 4
  | 1%nat => 2.1
  | 2%nat => 2.5
  | _ => 3
  end.

Definition toy_mean (l : list float) : float :=
  (fold_left PrimFloat.add l 0
   / SF2Prim (binary_normalize prec emax (Z.of_nat (length l)) 0 false))%float.

Definition toy_pickle (it : Z) : list byte :=
  match Byte.of_N (Z.to_N (it mod 256)) with
  | Some b => [b]
  | None => []
  end.

#[local] Instance toy_backend : Backend :=
  {| Weights := nat;
     OptState := nat;
     init_opt_state := 0%nat;
     forward := fun ws _ _ _ => Ok (toy_loss ws);
     backward_step := fun _ _ ws os _ _ => (S ws, S os);
     tensor_mean := toy_mean;
     seeded := fun s k => s + Z.of_nat k;
     pickle := fun _ _ it _ => toy_pickle it;
     wandb_init := fun _ => Ok tt;
     wandb_push := fun _ => Ok tt;
     elapsed := fun _ => 0.5%float;
     eval_elapsed := fun _ => 2%float;
     timedelta := fun _ => Ok tt |}.

(** The same library behind a metrics service that is unreachable: every
    [wandb.log] raises. *)
Definition offline_backend : Backend :=
  {| Weights := nat;
     OptState := nat;
     init_opt_state := 0%nat;
     forward := fun ws _ _ _ => Ok (toy_loss ws);
     backward_step := fun _ _ ws os _ _ => (S ws, S os);
     tensor_mean := toy_mean;
     seeded := fun s k => s + Z.of_nat k;
     pickle := fun _ _ it _ => toy_pickle it;
     wandb_init := fun _ => Ok tt;
     wandb_push := fun _ => Raise ServiceError;
     elapsed := fun _ => 0.5%float;
     eval_elapsed := fun _ => 2%float;
     timedelta := fun _ => Ok tt |}.

(** A run small enough to evaluate: windows of two tokens, batches of two
    rows, an evaluation of one batch per split before every step, three
    iterations (0, 1, 2), a flat learning rate and no metrics service. *)
Definition toy_config : TrainerConfig :=
  {| seq_length := 2; batch_size := 2; data_dir := Some "data";
     warmup_iters := 100; learning_rate := (1 / 10000)%R;
     lr_decay_iters := 5000; max_iters := 2; min_lr := (1 / 1000000)%R;
     weight_decay := Some (1 / 10)%R; beta1 := (9 / 10)%R;
     beta2 := (95 / 100)%R;
     compile := false; decay_lr := false; seed := 145; log_interval := 1;
     eval_interval := 1; eval_iters := 1; out_dir := "out";
     wandb_log := false; wandb_project := "GPT Training";
     wandb_run_name := "run1"; grad_norm_clip := 1%R |}.

(** The same run with the metrics service switched on. *)
Definition toy_config_wandb : TrainerConfig :=
  {| seq_length := 2; batch_size := 2; data_dir := Some "data";
     warmup_iters := 100; learning_rate := (1 / 10000)%R;
     lr_decay_iters := 5000; max_iters := 2; min_lr := (1 / 1000000)%R;
     weight_decay := Some (1 / 10)%R; beta1 := (9 / 10)%R;
     beta2 := (95 / 100)%R;
     compile := false; decay_lr := false; seed := 145; log_interval := 1;
     eval_interval := 1; eval_iters := 1; out_dir := "out";
     wandb_log := true; wandb_project := "GPT Training";
     wandb_run_name := "run1"; grad_norm_clip := 1%R |}.

(** [train.bin] holds the tokens 1..5 and [val.bin] the tokens 10..13. *)
Definition toy_train_bin : list byte :=
  [x01; x00; x02; x00; x03; x00; x04; x00; x05; x00].

Definition toy_val_bin : list byte :=
  [x0a; x00; x0b; x00; x0c; x00; x0d; x00].

Definition toy_files : gmap string (list byte) :=
  <["data/train.bin" := toy_train_bin]> (<["data/val.bin" := toy_val_bin]> ∅).

(** A data directory whose [val.bin] is missing. *)
Definition train_only_files : gmap string (list byte) :=
  <["data/train.bin" := toy_train_bin]> ∅.

(** A model with a trainable matrix, a trainable vector and a frozen
    matrix. *)
Definition toy_named_parameters : list (string * Param) :=
  [ ("wte.weight", {| pid := 1; shape := [8; 4]; requires_grad := true |});
    ("ln_f.weight", {| pid := 2; shape := [4]; requires_grad := true |});
    ("frozen.weight", {| pid := 3; shape := [4; 4]; requires_grad := false |}) ].

Definition toy_world (B : Backend) (ws : Weights)
    (fs : gmap string (list byte)) : World :=
  {| w_model := {| training := true; config_seq_length := 2;
                   named_parameters := toy_named_parameters;
                   weights := ws |};
     w_files := fs;
     w_dirs := {["data"]};
     w_gen := {| stream := fun k => Z.of_nat k; cursor := 0 |};
     w_trace := [] |}.

(** ** Further vocabulary for the properties below *)

(** The records [wandb.log] accepted, oldest first. *)
Fixpoint logged `{Backend} (tr : list Event) : list MetricsRecord :=
  match tr with
  | [] => []
  | EvMetrics r :: tr' => r :: logged tr'
  | _ :: tr' => logged tr'
  end.

(** What is visible from outside the process: files, directories and the
    calls made. *)
Definition outside `{Backend} (w : World) :=
  (w_files w, w_dirs w, w_trace w).

(** A statement keeps an invariant of the state, whether it returns or
    raises. *)
Definition keeps {St A} (I : St -> Prop) (m : M St A) : Prop :=
  forall s, I s -> I (snd (m s)).

(** What every checkpoint of a run of [train] looks like: it sits at
    [out_dir/ckpt.pt], was taken at an evaluation iteration after the first,
    and records a loss below the initial sentinel. *)
Definition run_checkpoint `{Backend} (cfg : TrainerConfig)
    (pc : string * Checkpoint) : Prop :=
  fst pc = path_join (out_dir cfg) "ckpt.pt"
  /\ 0 < ck_iter_num (snd pc) <= max_iters cfg
  /\ ck_iter_num (snd pc) mod eval_interval cfg = 0
  /\ (ck_best_val_loss (snd pc) <? 1e9)%float = true.

(** ** Data preparation ([news/prepare.py], [news/prepera_training_splits.py])

    Both scripts encode every document as [[bos] + ids + [eos]], concatenate
    the documents of a split, and write the split as unsigned 16-bit tokens
    next to the script; the second one first shuffles the documents and cuts
    them 90/10. The tokenizer, the shuffle and the documents are what the
    scripts are given. *)

(** [sentencepiece.SentencePieceProcessor] *)
Record Tokenizer : Type := {
  bos_id : Z;
  eos_id : Z;
  sp_encode : string -> list Z
}.

(** [[[sp.bos_id()] + sp.encode(doc) + [sp.eos_id()] for doc in docs]] *)
Definition encode_docs (sp : Tokenizer) (docs : list string) : list (list Z) :=
  map (fun doc => ([bos_id sp] ++ sp_encode sp doc ++ [eos_id sp])%list) docs.

(** [[code for codes in encoded for code in codes]] *)
Definition flatten (encoded : list (list Z)) : list Z := concat encoded.

(** [np.array(ids, dtype=np.uint16)]: a Python [int] outside the range of the
    type is refused. *)
Definition np_array_uint16 (ids : list Z) : result (list Z) :=
  if forallb (fun i => (0 <=? i) && (i <? 65536)) ids then Ok ids
  else Raise OverflowError.

Definition byte_of (z : Z) : byte :=
  match Byte.of_N (Z.to_N z) with
  | Some b => b
  | None => x00
  end.

(** [arr.tofile(path)] for an array of unsigned 16-bit values: two bytes per
    value, low byte first. *)
Definition tofile_uint16 (arr : list Z) : list byte :=
  flat_map (fun i => [byte_of (i mod 256); byte_of (i / 256)]) arr.

(** The last four lines of both scripts: convert both splits, then write
    [train.bin] and [val.bin] into the directory [here] of the script. *)
Definition export_bin (here : string) (train_ids val_ids : list Z)
    (files : gmap string (list byte)) : result (gmap string (list byte)) :=
  match np_array_uint16 train_ids with
  | Raise e => Raise e
  | Ok train_arr =>
      match np_array_uint16 val_ids with
      | Raise e => Raise e
      | Ok val_arr =>
          Ok (<[path_join here "val.bin" := tofile_uint16 val_arr]>
                (<[path_join here "train.bin" := tofile_uint16 train_arr]>
                   files))
      end
  end.

(** [news/prepare.py], on the texts of the two dataset splits. *)
Definition prepare (sp : Tokenizer) (train_data validation_data : list string)
    (here : string) (files : gmap string (list byte))
  : result (gmap string (list byte)) :=
  let train_data_docs_encoded := encode_docs sp train_data in
  let val_data_docs_encoded := encode_docs sp validation_data in
  let train_ids := flatten train_data_docs_encoded in
  let val_ids := flatten val_data_docs_encoded in
  export_bin here train_ids val_ids files.

(** [d[k]] on an insertion-ordered dictionary. *)
Fixpoint dict_lookup {V} (d : list (string * V)) (k : string) : result V :=
  match d with
  | [] => Raise KeyError
  | (k', v) :: d' => if String.eqb k' k then Ok v else dict_lookup d' k
  end.

(** The document a key names, for keys of the dictionary. *)
Definition doc_of (docs : list (string * string)) (k : string) : string :=
  match dict_lookup docs k with
  | Ok v => v
  | Raise _ => ""
  end.

(** [[f(x) for x in xs]] where [f] may raise. *)
Fixpoint comprehension {A C} (f : A -> result C) (xs : list A)
  : result (list C) :=
  match xs with
  | [] => Ok []
  | x :: xs' =>
      match f x with
      | Raise e => Raise e
      | Ok y =>
          match comprehension f xs' with
          | Raise e => Raise e
          | Ok ys => Ok (y :: ys)
          end
      end
  end.

(** [int(f)] for a float: truncation toward zero. *)
Definition int_of_float (f : float) : result Z :=
  match Prim2SF f with
  | S754_zero _ => Ok 0
  | S754_infinity _ => Raise OverflowError
  | S754_nan => Raise ValueError
  | S754_finite s m e =>
      let magnitude :=
        if 0 <=? e then Z.pos m * 2 ^ e else Z.pos m / 2 ^ (- e) in
      Ok (if s then - magnitude else magnitude)
  end.

(** [int(n*0.9)] *)
Definition split_point (n : Z) : result Z :=
  match float_of_int n with
  | Raise e => Raise e
  | Ok nf => int_of_float (nf * 0.9)%float
  end.

(** [news/prepera_training_splits.py] up to the documents of the two splits;
    [shuffle] is [random.shuffle] after [random.seed(123)]. *)
Definition split_docs (shuffle : list string -> list string)
    (docs : list (string * string)) : result (list string * list string) :=
  let n := Z.of_nat (length docs) in
  let keys := map fst docs in
  let keys := shuffle keys in
  match split_point n with
  | Raise e => Raise e
  | Ok k =>
      let train_data_keys := py_slice keys 0 k in
      let val_data_keys := py_slice keys k (Z.of_nat (length keys)) in
      match comprehension (dict_lookup docs) train_data_keys with
      | Raise e => Raise e
      | Ok train_data_docs =>
          match comprehension (dict_lookup docs) val_data_keys with
          | Raise e => Raise e
          | Ok val_data_docs => Ok (train_data_docs, val_data_docs)
          end
      end
  end.

(** [news/prepera_training_splits.py] *)
Definition prepare_training_splits (sp : Tokenizer)
    (shuffle : list string -> list string) (docs : list (string * string))
    (here : string) (files : gmap string (list byte))
  : result (gmap string (list byte)) :=
  match split_docs shuffle docs with
  | Raise e => Raise e
  | Ok (train_data_docs, val_data_docs) =>
      let train_ids := flatten (encode_docs sp train_data_docs) in
      let val_ids := flatten (encode_docs sp val_data_docs) in
      export_bin here train_ids val_ids files
  end.

(** A tokenizer that spells a text out in character codes offset by 3, with
    [bos = 1] and [eos = 2], and a small corpus for it. *)
Definition char_tokenizer : Tokenizer :=
  {| bos_id := 1; eos_id := 2;
     sp_encode := fun doc =>
       map (fun c => 3 + Z.of_N (N_of_ascii c)) (String.list_ascii_of_string doc) |}.

Definition toy_docs : list (string * string) :=
  [ ("a", "ab"); ("b", "c"); ("c", ""); ("d", "de"); ("e", "f");
    ("f", "g"); ("g", "h"); ("h", "i"); ("i", "j"); ("j", "k") ].

(** ** The model's parameter tensors ([model.py])

    Of the model only the tensors its constructor registers are embedded:
    their names, shapes and identities, which is what the trainer's optimizer
    setup and the parameter count look at. The constructors of the layers
    are PyTorch's: an embedding holds a [num x dim] weight, a linear layer
    without bias an [out x in] weight, a layer norm without bias a weight of
    its width, and a tensor with a negative size cannot be created. *)

Record GPTConfig : Type := {
  g_seq_length : Z;
  vocab_size : Z;
  n_embed : Z;
  n_head : Z;
  n_layer : Z;
  dropout : float
}.

(** [p.numel()] *)
Definition numel (p : Param) : Z := fold_right Z.mul 1 (shape p).

Definition result_bind {A C} (r : result A) (k : A -> result C) : result C :=
  match r with
  | Ok a => k a
  | Raise e => Raise e
  end.

Notation "x <~ r ;; k" := (result_bind r (fun x => k))
  (at level 100, r at next level, right associativity).

(** [nn.Parameter(torch.empty(shape))] *)
Definition new_parameter (id : positive) (dims : list Z) : result Param :=
  if forallb (fun d => 0 <=? d) dims
  then Ok {| pid := id; shape := dims; requires_grad := true |}
  else Raise RuntimeError.

(** [nn.Embedding(num, dim)] *)
Definition nn_Embedding (id : positive) (num dim : Z) : result Param :=
  new_parameter id [num; dim].

(** [nn.Linear(fan_in, fan_out, bias=False)] *)
Definition nn_Linear (id : positive) (fan_in fan_out : Z) : result Param :=
  new_parameter id [fan_out; fan_in].

(** [nn.LayerNorm(width, bias=False)] *)
Definition nn_LayerNorm (id : positive) (width : Z) : result Param :=
  new_parameter id [width].

(** [nn.Dropout(p)] *)
Definition nn_Dropout (p : float) : result unit :=
  if ((p <? 0) || (1 <? p))%float then Raise ValueError else Ok tt.

(** [str(i)] for an index. *)
Definition str (i : nat) : string := NilEmpty.string_of_uint (Nat.to_uint i).

(** The identity of the [slot]-th tensor of block [i]; the two embeddings
    are 1 and 2, and the final layer norm and the head follow the blocks. *)
Definition block_pid (i slot : nat) : positive := Pos.of_nat (3 + 6 * i + slot).

(** [MLP.__init__] *)
Definition MLP_init (cfg : GPTConfig) (i : nat)
  : result (list (string * Param)) :=
  c_fc <~ nn_Linear (block_pid i 4) (n_embed cfg) (n_embed cfg * 4) ;;
  c_proj <~ nn_Linear (block_pid i 5) (n_embed cfg * 4) (n_embed cfg) ;;
  _ <~ nn_Dropout (dropout cfg) ;;
  Ok [("c_fc.weight", c_fc); ("c_proj.weight", c_proj)].

(** [CausalSelfAttention.__init__], with the fused attention kernel
    present. *)
Definition CausalSelfAttention_init (cfg : GPTConfig) (i : nat)
  : result (list (string * Param)) :=
  r <~ py_mod (n_embed cfg) (n_head cfg) ;;
  if negb (r =? 0) then Raise AssertionError
  else
    c_attn <~ nn_Linear (block_pid i 1) (n_embed cfg) (3 * n_embed cfg) ;;
    c_proj <~ nn_Linear (block_pid i 2) (n_embed cfg) (n_embed cfg) ;;
    _ <~ nn_Dropout (dropout cfg) ;;
    _ <~ nn_Dropout (dropout cfg) ;;
    Ok [("c_attn.weight", c_attn); ("c_proj.weight", c_proj)].

(** Registering a submodule: its parameters under its name. *)
Definition under (prefix : string) (ps : list (string * Param))
  : list (string * Param) :=
  map (fun np => (prefix +:+ "." +:+ fst np, snd np)) ps.

(** [Block.__init__] *)
Definition Block_init (cfg : GPTConfig) (i : nat)
  : result (list (string * Param)) :=
  ln_1 <~ nn_LayerNorm (block_pid i 0) (n_embed cfg) ;;
  attn <~ CausalSelfAttention_init cfg i ;;
  ln_2 <~ nn_LayerNorm (block_pid i 3) (n_embed cfg) ;;
  mlp <~ MLP_init cfg i ;;
  Ok ([("ln_1.weight", ln_1)] ++ under "attn" attn
      ++ [("ln_2.weight", ln_2)] ++ under "mlp" mlp)%list.

(** [GPT.__init__]: the registered parameters by name, in registration
    order, after the weight tying. *)
Definition GPT_init (cfg : GPTConfig) : result (list (string * Param)) :=
  let layers := Z.to_nat (n_layer cfg) in
  wte <~ nn_Embedding 1 (vocab_size cfg) (n_embed cfg) ;;
  wpe <~ nn_Embedding 2 (g_seq_length cfg) (n_embed cfg) ;;
  _ <~ nn_Dropout (dropout cfg) ;;
  h <~ comprehension
         (fun i => block <~ Block_init cfg i ;; Ok (under (str i) block))
         (seq 0 layers) ;;
  ln_f <~ nn_LayerNorm (block_pid layers 0) (n_embed cfg) ;;
  lm_head <~ nn_Linear (block_pid layers 1) (n_embed cfg) (vocab_size cfg) ;;
  let wte := lm_head in
  Ok (under "transformer"
        ([("wte.weight", wte); ("wpe.weight", wpe)]
         ++ under "h" (concat h) ++ [("ln_f.weight", ln_f)])
      ++ [("lm_head.weight", lm_head)])%list.

(** [module.named_parameters()]: a tensor registered under several names is
    listed once, under the first. *)
Fixpoint remove_duplicate (seen : list positive) (ps : list (string * Param))
  : list (string * Param) :=
  match ps with
  | [] => []
  | (name, p) :: ps' =>
      if bool_decide (pid p ∈ seen) then remove_duplicate seen ps'
      else (name, p) :: remove_duplicate (pid p :: seen) ps'
  end.

Definition gpt_named_parameters (registered : list (string * Param))
  : list (string * Param) :=
  remove_duplicate [] registered.

(** [GPT.get_num_params] *)
Definition get_num_params (registered : list (string * Param))
    (non_embedding : bool) : result Z :=
  let n_params :=
    fold_right Z.add 0 (map (fun np => numel (snd np))
                          (gpt_named_parameters registered)) in
  if non_embedding then
    wpe <~ dict_lookup registered "transformer.wpe.weight" ;;
    Ok (n_params - numel wpe)
  else Ok n_params.

(** The defaults of the [GPTConfig] dataclass. *)
Definition default_gpt_config : GPTConfig :=
  {| g_seq_length := 1024; vocab_size := 8192; n_embed := 384; n_head := 6;
     n_layer := 6; dropout := 0.1%float |}.

(** The registry [GPT.__init__] builds when it succeeds, in closed form. *)
Definition tensor (id : positive) (dims : list Z) : Param :=
  {| pid := id; shape := dims; requires_grad := true |}.

Definition block_parameters (n : Z) (i : nat) : list (string * Param) :=
  [ ("ln_1.weight", tensor (block_pid i 0) [n]);
    ("attn.c_attn.weight", tensor (block_pid i 1) [3 * n; n]);
    ("attn.c_proj.weight", tensor (block_pid i 2) [n; n]);
    ("ln_2.weight", tensor (block_pid i 3) [n]);
    ("mlp.c_fc.weight", tensor (block_pid i 4) [n * 4; n]);
    ("mlp.c_proj.weight", tensor (block_pid i 5) [n; n * 4]) ].

Definition layer_parameters (n : Z) (first count : nat)
  : list (string * Param) :=
  concat (map (fun i => under (str i) (block_parameters n i))
            (seq first count)).

Definition transformer_parameters (cfg : GPTConfig) : list (string * Param) :=
  let layers := Z.to_nat (n_layer cfg) in
  under "transformer"
    ([ ("wte.weight",
        tensor (block_pid layers 1) [vocab_size cfg; n_embed cfg]);
       ("wpe.weight", tensor 2 [g_seq_length cfg; n_embed cfg]) ]
     ++ under "h" (layer_parameters (n_embed cfg) 0 layers)
     ++ [("ln_f.weight", tensor (block_pid layers 0) [n_embed cfg])])%list.

Definition gpt_parameters (cfg : GPTConfig) : list (string * Param) :=
  (transformer_parameters cfg
   ++ [("lm_head.weight",
        tensor (block_pid (Z.to_nat (n_layer cfg)) 1)
          [vocab_size cfg; n_embed cfg])])%list.

(** The number of elements of a list of named tensors. *)
Definition total (ps : list (string * Param)) : Z :=
  fold_right Z.add 0 (map (fun np => numel (snd np)) ps).

(** The part of a name before its first dot. *)
Fixpoint before_dot (s : string) : string :=
  match s with
  | EmptyString => EmptyString
  | String c s' =>
      if Ascii.eqb c "." then EmptyString else String c (before_dot s')
  end.

(** [sum(p.numel() for p in params)] *)
Definition numels (ts : list Param) : Z := fold_right Z.add 0 (map numel ts).

(** The model of the default [GPTConfig], as the trainer holds it. *)
Definition gpt_module (ws : @Weights toy_backend) : @Module_ toy_backend :=
  {| training := true; config_seq_length := g_seq_length default_gpt_config;
     named_parameters := gpt_named_parameters (gpt_parameters default_gpt_config);
     weights := ws |}.

(** * Properties *)

(** ** The learning-rate schedule *)

Section Schedule.
Variable cfg : TrainerConfig.

Local Abbreviation w := (warmup_iters cfg).
Local Abbreviation d := (lr_decay_iters cfg).

Lemma true_div_ok (x : R) (k : Z) : k <> 0 -> true_div x k = Ok (x / IZR k)%R.
Proof.
  intros Hk. unfold true_div.
  destruct (Z.eqb_spec k 0) as [->|_]; [contradiction | reflexivity].
Qed.

Lemma true_div_zero (x : R) : true_div x 0 = Raise ZeroDivisionError.
Proof. reflexivity. Qed.

Lemma get_lr_warmup (it : Z) :
  it < w -> get_lr cfg it = true_div (learning_rate cfg * IZR it) w.
Proof.
  intros H. unfold get_lr.
  destruct (Z.ltb_spec it w) as [_|H']; [reflexivity | lia].
Qed.

Lemma get_lr_plateau (it : Z) :
  w <= it -> d < it -> get_lr cfg it = Ok (min_lr cfg).
Proof.
  intros H1 H2. unfold get_lr.
  destruct (Z.ltb_spec it w) as [H'|_]; [lia|].
  destruct (Z.gtb_spec it d) as [_|H']; [reflexivity | lia].
Qed.

Lemma decay_ratio_bounds (it : Z) :
  w <= it <= d -> w < d -> (0 <= IZR (it - w) / IZR (d - w) <= 1)%R.
Proof.
  intros [H1 H2] H3.
  assert (Hd : (0 < IZR (d - w))%R) by (apply IZR_lt; lia).
  assert (Hn : (0 <= IZR (it - w))%R) by (apply IZR_le; lia).
  assert (Hle : (IZR (it - w) <= IZR (d - w))%R) by (apply IZR_le; lia).
  split.
  - apply Rmult_le_pos; [assumption|]. left. now apply Rinv_0_lt_compat.
  - apply (Rmult_le_reg_r (IZR (d - w))); [assumption|].
    unfold Rdiv. rewrite Rmult_assoc, Rinv_l by lra. lra.
Qed.

Lemma get_lr_cosine (it : Z) :
  w <= it <= d -> w < d ->
  get_lr cfg it =
    Ok (min_lr cfg
        + 0.5 * (1 + cos (PI * IZR (it - w) / IZR (d - w)))
          * (learning_rate cfg - min_lr cfg))%R.
Proof.
  intros Hit Hwd. pose proof (decay_ratio_bounds it Hit Hwd) as [Hlo Hhi].
  unfold get_lr.
  destruct (Z.ltb_spec it w) as [H'|_]; [lia|].
  destruct (Z.gtb_spec it d) as [H'|_]; [lia|].
  rewrite true_div_ok by lia.
  destruct (Rle_dec 0 (IZR (it - w) / IZR (d - w))) as [_|N]; [|contradiction].
  destruct (Rle_dec (IZR (it - w) / IZR (d - w)) 1) as [_|N]; [|contradiction].
  do 4 f_equal. unfold Rdiv. now rewrite Rmult_assoc.
Qed.

Lemma get_lr_equal_bounds : w = d -> get_lr cfg w = Raise ZeroDivisionError.
Proof.
  intros E. unfold get_lr.
  destruct (Z.ltb_spec w w) as [H'|_]; [lia|].
  destruct (Z.gtb_spec w d) as [H'|_]; [lia|].
  rewrite <- E, Z.sub_diag. reflexivity.
Qed.

Lemma get_lr_returns (it : Z) :
  0 <= it -> w < d -> is_ok (get_lr cfg it) = true.
Proof.
  intros Hit Hwd.
  destruct (Z.lt_ge_cases it w) as [H1|H1].
  - rewrite get_lr_warmup, true_div_ok by lia. reflexivity.
  - destruct (Z.le_gt_cases it d) as [H2|H2].
    + rewrite get_lr_cosine by lia. reflexivity.
    + rewrite get_lr_plateau by lia. reflexivity.
Qed.

End Schedule.

(** C2, as amended. [get_lr] tests its phases in order. For [it] below
    [warmup_iters] (a non-zero divisor) it is the linear ramp
    [learning_rate * it / warmup_iters]; for [it] past the warmup and above
    [lr_decay_iters] it is [min_lr]; for [warmup_iters <= it <= lr_decay_iters]
    it is the cosine formula provided [warmup_iters < lr_decay_iters]. With
    [decay_lr] enabled this is the rate [update_lr] returns. *)
Theorem get_lr_three_phase `{Backend} (cfg : TrainerConfig) (it : Z)
    (optimizer : Optimizer) (Hdecay : decay_lr cfg = true) :
  result_map fst (update_lr cfg it optimizer) = get_lr cfg it
  /\ (it < warmup_iters cfg -> warmup_iters cfg <> 0 ->
      get_lr cfg it
      = Ok (learning_rate cfg * IZR it / IZR (warmup_iters cfg))%R)
  /\ (warmup_iters cfg <= it -> it > lr_decay_iters cfg ->
      get_lr cfg it = Ok (min_lr cfg))
  /\ (warmup_iters cfg <= it <= lr_decay_iters cfg ->
      warmup_iters cfg < lr_decay_iters cfg ->
      get_lr cfg it
      = Ok (min_lr cfg
            + 0.5 * (1 + cos (PI * IZR (it - warmup_iters cfg)
                              / IZR (lr_decay_iters cfg - warmup_iters cfg)))
              * (learning_rate cfg - min_lr cfg))%R).
Proof.
  repeat split.
  - unfold update_lr. rewrite Hdecay. simpl.
    now destruct (get_lr cfg it).
  - intros Hlt Hnz. now rewrite get_lr_warmup, true_div_ok.
  - intros Hge Hgt. apply get_lr_plateau; lia.
  - intros Hin Hstrict. now apply get_lr_cosine.
Qed.

Lemma get_lr_three_phase_witness :
  get_lr default_config 50
  = Ok (learning_rate default_config * IZR 50 / IZR 100)%R.
Proof.
  refine (proj1 (proj2
    (get_lr_three_phase (H := toy_backend) default_config 50
       {| param_groups := []; opt_state := 0%nat |} _)) _ _).
  - reflexivity.
  - simpl; lia.
  - simpl; lia.
Defined.

(** C2 fails as stated: with [warmup_iters = lr_decay_iters = 100], iteration
    100 is neither in warmup nor past the decay horizon, yet [get_lr] returns
    no value there. *)
Lemma get_lr_three_phase_counterexample :
  decay_lr flat_config = true
  /\ ~ 100 < warmup_iters flat_config
  /\ ~ 100 > lr_decay_iters flat_config
  /\ forall v : R, get_lr flat_config 100 <> Ok v.
Proof.
  repeat split; try (simpl; lia).
  intros v Hv. pose proof (get_lr_equal_bounds flat_config eq_refl) as E.
  change (warmup_iters flat_config) with 100 in E. congruence.
Qed.




(** C9. With [warmup_iters = lr_decay_iters] the call [get_lr(warmup_iters)]
    raises [ZeroDivisionError]; and among the configurations with
    [0 <= warmup_iters <= lr_decay_iters], the schedule returns a value at
    every iteration [it >= 0] exactly when [warmup_iters < lr_decay_iters]. *)
Theorem get_lr_total_only_when_strict (cfg : TrainerConfig) :
  (forall k, warmup_iters cfg = k -> lr_decay_iters cfg = k ->
     get_lr cfg k = Raise ZeroDivisionError)
  /\ (0 <= warmup_iters cfg <= lr_decay_iters cfg ->
      ((forall it, 0 <= it -> is_ok (get_lr cfg it) = true)
       <-> warmup_iters cfg < lr_decay_iters cfg)).
Proof.
  split.
  - intros k Hw Hd. subst k. apply get_lr_equal_bounds. congruence.
  - intros [H0 Hle]. split.
    + intros Htot.
      destruct (Z.eq_dec (warmup_iters cfg) (lr_decay_iters cfg)) as [E|NE];
        [|lia].
      specialize (Htot (warmup_iters cfg) H0).
      rewrite (get_lr_equal_bounds cfg E) in Htot. discriminate.
    + intros Hlt it Hit. now apply get_lr_returns.
Qed.

Lemma get_lr_total_only_when_strict_witness :
  get_lr flat_config 100 = Raise ZeroDivisionError
  /\ (forall it, 0 <= it -> is_ok (get_lr default_config it) = true).
Proof.
  split.
  - apply (proj1 (get_lr_total_only_when_strict flat_config) 100); reflexivity.
  - apply (proj2 (get_lr_total_only_when_strict default_config)); simpl; lia.
Defined.

(** ** Batches *)

Section Slices.
Context {A : Type}.
Implicit Types (l : list A) (lo hi n : Z).

Lemma slice_bound_nonneg (len i : Z) : 0 <= i -> slice_bound len i = Z.min i len.
Proof.
  intros Hi. unfold slice_bound.
  destruct (Z.ltb_spec i 0); [lia | reflexivity].
Qed.

(** A slice that starts at a non-negative index reads the list from there. *)
Lemma py_slice_lookup_Some l lo hi (j : nat) (v : A) :
  0 <= lo -> py_slice l lo hi !! j = Some v ->
  l !! (Z.to_nat lo + j)%nat = Some v.
Proof.
  intros Hlo. unfold py_slice. rewrite (slice_bound_nonneg _ lo) by assumption.
  intros Hj. apply lookup_take_Some in Hj as [Hj _].
  rewrite lookup_drop in Hj.
  destruct (Z.le_gt_cases lo (Z.of_nat (length l))) as [Hle|Hgt].
  - now rewrite Z.min_l in Hj by assumption.
  - rewrite Z.min_r, Nat2Z.id in Hj by lia.
    apply lookup_lt_Some in Hj. lia.
Qed.

(** A window that lies inside the list. *)
Lemma py_slice_window l lo n :
  0 <= lo -> 0 <= n -> lo + n <= Z.of_nat (length l) ->
  py_slice l lo (lo + n) = take (Z.to_nat n) (drop (Z.to_nat lo) l).
Proof.
  intros Hlo Hn Hfit. unfold py_slice.
  rewrite !slice_bound_nonneg by lia.
  rewrite !Z.min_l by lia. do 2 f_equal. lia.
Qed.

Lemma py_slice_window_length l lo n :
  0 <= lo -> 0 <= n -> lo + n <= Z.of_nat (length l) ->
  length (py_slice l lo (lo + n)) = Z.to_nat n.
Proof.
  intros Hlo Hn Hfit. rewrite py_slice_window by assumption.
  rewrite length_take, length_drop. lia.
Qed.

Lemma py_slice_window_lookup l lo n (j : nat) :
  0 <= lo -> 0 <= n -> lo + n <= Z.of_nat (length l) ->
  (j < Z.to_nat n)%nat ->
  py_slice l lo (lo + n) !! j = l !! (Z.to_nat lo + j)%nat
  /\ is_Some (l !! (Z.to_nat lo + j)%nat).
Proof.
  intros Hlo Hn Hfit Hj. rewrite py_slice_window by assumption.
  rewrite lookup_take_lt by assumption. rewrite lookup_drop. split; [reflexivity|].
  apply lookup_lt_is_Some. lia.
Qed.

End Slices.

Lemma draw_length (g : Generator) (high : Z) (k : nat) :
  length (draw g high k) = k.
Proof. unfold draw. now rewrite length_map, length_seq. Qed.

Lemma draw_range (g : Generator) (high : Z) (k : nat) :
  0 < high -> Forall (fun i => 0 <= i <= high - 1) (draw g high k).
Proof.
  intros Hh. unfold draw. apply Forall_map, Forall_forall. intros j _. simpl.
  pose proof (Z.mod_pos_bound (stream g (cursor g + j)) high Hh). lia.
Qed.

Lemma torch_stack_uniform (rows : list (list Z)) (n : nat) :
  rows <> [] -> Forall (fun r => length r = n) rows ->
  torch_stack rows = Ok rows.
Proof.
  intros Hne Hall. destruct rows as [|r rows']; [contradiction|].
  unfold torch_stack.
  replace (forallb _ (r :: rows')) with true; [reflexivity|].
  symmetry. apply forallb_forall. intros r' Hin.
  apply Nat.eqb_eq. rewrite Forall_forall in Hall.
  rewrite (Hall r'), (Hall r); [reflexivity | | ].
  - apply list_elem_of_In. now left.
  - now apply list_elem_of_In.
Qed.

Lemma torch_stack_Ok (rows out : list (list Z)) :
  torch_stack rows = Ok out -> out = rows.
Proof.
  unfold torch_stack. destruct rows as [|r rows']; [discriminate|].
  destruct (forallb _ _); [congruence | discriminate].
Qed.

Section GetBatch.
Context `{B : Backend}.
Variables (cfg : TrainerConfig) (split : string) (w : World).
Variables (d : string) (data : list Z).

Local Abbreviation slen := (seq_length cfg).
Local Abbreviation clen := (Z.of_nat (length data)).
Local Abbreviation file :=
  (path_join d (if String.eqb split "train" then "train.bin" else "val.bin")).
Local Abbreviation ix := (draw (w_gen w) (clen - slen) (Z.to_nat (batch_size cfg))).
Local Abbreviation inputs := (map (fun i => py_slice data i (i + slen)) ix).
Local Abbreviation targets := (map (fun i => py_slice data (i + 1) (i + 1 + slen)) ix).

Hypothesis Hdir : data_dir cfg = Some d.
Hypothesis Hmap : np_memmap_uint16 (w_files w) file = Ok data.

(** What a returned batch is made of. *)
Lemma get_batch_Ok (x y : list (list Z)) (w' : World) :
  get_batch cfg split w = (Ok (x, y), w') ->
  x = inputs /\ y = targets
  /\ w' = set_gen (advance (w_gen w) (Z.to_nat (batch_size cfg))) w.
Proof.
  unfold get_batch, bind. rewrite Hdir. simpl. rewrite Hmap.
  unfold torch_randint.
  destruct (clen - slen <=? 0); [discriminate|].
  destruct (batch_size cfg <? 0); [discriminate|].
  unfold lift.
  destruct (torch_stack inputs) as [x0|] eqn:Ex; [|discriminate].
  destruct (torch_stack targets) as [y0|] eqn:Ey; [|discriminate].
  unfold ret. intros E. inversion E; subst.
  apply torch_stack_Ok in Ex, Ey. auto.
Qed.

(** With a non-negative sequence length and a non-empty batch the call
    returns. *)
Lemma get_batch_run :
  0 <= slen -> clen >= slen + 1 -> 0 < batch_size cfg ->
  get_batch cfg split w
  = (Ok (inputs, targets),
     set_gen (advance (w_gen w) (Z.to_nat (batch_size cfg))) w).
Proof.
  intros Hs Hl HB.
  assert (Hne : ix <> []).
  { intros E.
    pose proof (draw_length (w_gen w) (clen - slen) (Z.to_nat (batch_size cfg))) as Hn.
    rewrite E in Hn. cbn [length] in Hn. lia. }
  pose proof (draw_range (w_gen w) (clen - slen) (Z.to_nat (batch_size cfg))
                ltac:(lia)) as Hr.
  assert (Hx : torch_stack inputs = Ok inputs).
  { apply (torch_stack_uniform _ (Z.to_nat slen)).
    - intros E. apply Hne. now apply map_eq_nil in E.
    - apply Forall_map. eapply Forall_impl; [exact Hr|].
      intros i Hi. simpl in Hi |- *. apply py_slice_window_length; lia. }
  assert (Hy : torch_stack targets = Ok targets).
  { apply (torch_stack_uniform _ (Z.to_nat slen)).
    - intros E. apply Hne. now apply map_eq_nil in E.
    - apply Forall_map. eapply Forall_impl; [exact Hr|].
      intros i Hi. simpl in Hi |- *. apply py_slice_window_length; lia. }
  unfold get_batch, bind. rewrite Hdir. simpl. rewrite Hmap.
  unfold torch_randint.
  destruct (Z.leb_spec (clen - slen) 0); [lia|].
  destruct (Z.ltb_spec (batch_size cfg) 0); [lia|].
  unfold lift. rewrite Hx, Hy. reflexivity.
Qed.

End GetBatch.

(** C5. Let [data] be the corpus [get_batch] maps, of length [L], and let
    [L >= S + 1]. The call draws [batch_size] start indices, each with
    [0 <= i <= L - S - 1]. Whenever it returns, the input rows are the slices
    [data[i : i+S]] and the target rows the slices [data[i+1 : i+1+S]] of
    those indices, so position [j] of an input row is corpus position [i+j]
    and position [j] of its target row is corpus position [i+j+1]. For a
    sequence length [S >= 0] and a batch size above 0 it does return, and
    every row has all of its [S] positions. *)
Theorem get_batch_windows `{Backend} (cfg : TrainerConfig) (split : string)
    (w : World) (d : string) (data : list Z)
    (Hdir : data_dir cfg = Some d)
    (Hmap : np_memmap_uint16 (w_files w)
              (path_join d (if String.eqb split "train" then "train.bin"
                            else "val.bin")) = Ok data)
    (Hlen : Z.of_nat (length data) >= seq_length cfg + 1) :
  let ix := draw (w_gen w) (Z.of_nat (length data) - seq_length cfg)
              (Z.to_nat (batch_size cfg)) in
  let inputs := map (fun i => py_slice data i (i + seq_length cfg)) ix in
  let targets := map (fun i => py_slice data (i + 1) (i + 1 + seq_length cfg)) ix in
  length ix = Z.to_nat (batch_size cfg)
  /\ Forall (fun i => 0 <= i <= Z.of_nat (length data) - seq_length cfg - 1) ix
  /\ (forall x y w', get_batch cfg split w = (Ok (x, y), w') ->
        x = inputs /\ y = targets)
  /\ (forall i (j : nat) v, i ∈ ix ->
        (py_slice data i (i + seq_length cfg) !! j = Some v ->
         data !! (Z.to_nat i + j)%nat = Some v)
        /\ (py_slice data (i + 1) (i + 1 + seq_length cfg) !! j = Some v ->
            data !! (Z.to_nat i + j + 1)%nat = Some v))
  /\ (0 <= seq_length cfg -> 0 < batch_size cfg ->
        fst (get_batch cfg split w) = Ok (inputs, targets)
        /\ forall i (j : nat), i ∈ ix -> (j < Z.to_nat (seq_length cfg))%nat ->
             py_slice data i (i + seq_length cfg) !! j
             = data !! (Z.to_nat i + j)%nat
             /\ py_slice data (i + 1) (i + 1 + seq_length cfg) !! j
                = data !! (Z.to_nat i + j + 1)%nat
             /\ is_Some (data !! (Z.to_nat i + j + 1)%nat)).
Proof.
  intros ix inputs targets.
  assert (Hr : Forall (fun i => 0 <= i <= Z.of_nat (length data) - seq_length cfg - 1) ix)
    by (apply draw_range; lia).
  split; [apply draw_length|]. split; [exact Hr|]. split; [|split].
  - intros x y w' E.
    destruct (get_batch_Ok cfg split w d data Hdir Hmap x y w' E) as (-> & -> & _).
    split; reflexivity.
  - intros i j v Hi. rewrite Forall_forall in Hr. specialize (Hr i Hi).
    split; intros Hj.
    + apply py_slice_lookup_Some in Hj; [exact Hj | lia].
    + apply py_slice_lookup_Some in Hj; [|lia].
      rewrite <- Hj. f_equal. lia.
  - intros Hs Hb. split.
    + now rewrite (get_batch_run cfg split w d data Hdir Hmap Hs Hlen Hb).
    + intros i j Hi Hj. rewrite Forall_forall in Hr. specialize (Hr i Hi).
      destruct (py_slice_window_lookup data i (seq_length cfg) j) as [E1 _];
        [lia .. |].
      destruct (py_slice_window_lookup data (i + 1) (seq_length cfg) j) as [E2 S2];
        [lia .. |].
      replace (Z.to_nat (i + 1) + j)%nat with (Z.to_nat i + j + 1)%nat in E2, S2
        by lia.
      auto.
Qed.

Lemma get_batch_windows_witness :
  fst (get_batch toy_config "train" (toy_world toy_backend 0%nat toy_files))
  = Ok ([[1; 2]; [2; 3]], [[2; 3]; [3; 4]]).
Proof.
  refine (proj1 (proj2 (proj2 (proj2 (proj2
    (get_batch_windows (H := toy_backend) toy_config "train"
       (toy_world toy_backend 0%nat toy_files) "data" [1; 2; 3; 4; 5]
       _ _ _)))) _ _)).
  - reflexivity.
  - vm_compute. reflexivity.
  - vm_compute. discriminate.
  - vm_compute. discriminate.
  - reflexivity.
Defined.

(** C10. A [split] that is not the string ['train'] is never rejected: the
    call does exactly what [get_batch('val')] does, which is to map
    [val.bin]; when that corpus is long enough the call returns a batch of
    its windows. *)
Theorem get_batch_other_split_reads_val `{Backend} (cfg : TrainerConfig)
    (split : string) (w : World) (Hsplit : split <> "train") :
  get_batch cfg split w = get_batch cfg "val" w
  /\ forall d data,
       data_dir cfg = Some d ->
       np_memmap_uint16 (w_files w) (path_join d "val.bin") = Ok data ->
       0 <= seq_length cfg ->
       Z.of_nat (length data) >= seq_length cfg + 1 ->
       0 < batch_size cfg ->
       let ix := draw (w_gen w) (Z.of_nat (length data) - seq_length cfg)
                   (Z.to_nat (batch_size cfg)) in
       fst (get_batch cfg split w)
       = Ok (map (fun i => py_slice data i (i + seq_length cfg)) ix,
             map (fun i => py_slice data (i + 1) (i + 1 + seq_length cfg)) ix).
Proof.
  assert (E : String.eqb split "train" = false) by now apply String.eqb_neq.
  split.
  - unfold get_batch. rewrite E. reflexivity.
  - intros d data Hdir Hmap Hs Hl Hb ix.
    rewrite (get_batch_run cfg split w d data Hdir); try assumption.
    + reflexivity.
    + now rewrite E.
Qed.

Lemma get_batch_other_split_reads_val_witness :
  fst (get_batch toy_config "test" (toy_world toy_backend 0%nat toy_files))
  = Ok ([[10; 11]; [11; 12]], [[11; 12]; [12; 13]]).
Proof.
  refine (proj2 (get_batch_other_split_reads_val (H := toy_backend) toy_config
            "test" (toy_world toy_backend 0%nat toy_files) _)
            "data" [10; 11; 12; 13] _ _ _ _ _).
  - discriminate.
  - reflexivity.
  - vm_compute. reflexivity.
  - vm_compute. discriminate.
  - vm_compute. discriminate.
  - reflexivity.
Defined.

(** ** The optimizer's parameter groups *)

Section Dict.
Context {V : Type}.
Implicit Types (d l : list (string * V)).

Lemma dict_set_fresh d (k : string) (v : V) :
  ~ In k (map fst d) -> dict_set d k v = (d ++ [(k, v)])%list.
Proof.
  induction d as [|[k' v'] d' IH]; simpl; intros Hk; [reflexivity|].
  destruct (String.eqb_spec k' k) as [->|_]; [tauto|].
  rewrite IH by tauto. reflexivity.
Qed.

Lemma dict_fold_fresh l d :
  NoDup (map fst (d ++ l)%list) ->
  fold_left (fun d kv => dict_set d (fst kv) (snd kv)) l d = (d ++ l)%list.
Proof.
  revert d. induction l as [|[k v] l' IH]; intros d Hnd; simpl.
  - now rewrite app_nil_r.
  - rewrite dict_set_fresh.
    + rewrite IH; rewrite <- app_assoc; [reflexivity | exact Hnd].
    + rewrite map_app in Hnd. simpl in Hnd.
      apply NoDup_ListNoDup, List.NoDup_remove_2 in Hnd.
      intros Hin. apply Hnd, in_or_app. now left.
Qed.

(** A comprehension over pairs with distinct keys keeps every pair, in
    order. *)
Lemma dict_of_distinct l : NoDup (map fst l) -> dict_of l = l.
Proof. intros Hnd. unfold dict_of. now rewrite dict_fold_fresh. Qed.

End Dict.

Lemma filter_snd {K X} (f : X -> bool) (l : list (K * X)) :
  map snd (List.filter (fun kx => f (snd kx)) l) = List.filter f (map snd l).
Proof.
  induction l as [|[k x] l' IH]; simpl; [reflexivity|].
  destruct (f x); simpl; now rewrite IH.
Qed.

Lemma filter_split_Permutation {X} (f g : X -> bool) (l : list X) :
  (forall x, g x = negb (f x)) ->
  Permutation (List.filter f l ++ List.filter g l)%list l.
Proof.
  intros Hfg. induction l as [|x l' IH]; simpl; [constructor|].
  rewrite Hfg. destruct (f x); simpl.
  - now constructor.
  - symmetry. apply Permutation_cons_app. now symmetry.
Qed.

(** C6. For a model whose parameter names are distinct (as
    [named_parameters()] yields them), the optimizer has exactly two groups:
    the first holds the trainable parameters of rank at least 2 and carries
    the configured [weight_decay], the second holds the trainable parameters
    of rank below 2 and carries weight decay [0.0]; no parameter is in both,
    and together the groups are the trainable parameters, each as often as it
    is listed. *)
Theorem configure_optimizers_partition `{Backend} (cfg : TrainerConfig)
    (model : Module_)
    (Hnames : NoDup (map fst (named_parameters model))) :
  let trainable := List.filter requires_grad (map snd (named_parameters model)) in
  exists decay nodecay,
    param_groups (_configure_optimizers cfg model)
    = [ {| params := decay; pg_weight_decay := weight_decay cfg;
           pg_lr := learning_rate cfg; pg_betas := (beta1 cfg, beta2 cfg) |};
        {| params := nodecay; pg_weight_decay := Some 0%R;
           pg_lr := learning_rate cfg; pg_betas := (beta1 cfg, beta2 cfg) |} ]
    /\ (forall p, In p decay <-> In p trainable /\ dim p >= 2)
    /\ (forall p, In p nodecay <-> In p trainable /\ dim p < 2)
    /\ (forall p, ~ (In p decay /\ In p nodecay))
    /\ (forall p, In p decay \/ In p nodecay <-> In p trainable)
    /\ Permutation (decay ++ nodecay)%list trainable.
Proof.
  intros trainable.
  exists (List.filter (fun p => dim p >=? 2) trainable),
         (List.filter (fun p => dim p <? 2) trainable).
  assert (Hd : forall p, In p (List.filter (fun p => dim p >=? 2) trainable)
                         <-> In p trainable /\ dim p >= 2).
  { intros p. rewrite filter_In, Z.geb_le. intuition lia. }
  assert (Hn : forall p, In p (List.filter (fun p => dim p <? 2) trainable)
                         <-> In p trainable /\ dim p < 2).
  { intros p. rewrite filter_In, Z.ltb_lt. reflexivity. }
  split; [|split; [exact Hd|split; [exact Hn|split; [|split]]]].
  - unfold _configure_optimizers. simpl.
    rewrite dict_of_distinct by assumption.
    rewrite !(filter_snd (fun p => dim p >=? 2)), !(filter_snd (fun p => dim p <? 2)).
    rewrite !(filter_snd requires_grad). reflexivity.
  - intros p [H1 H2]. apply Hd in H1. apply Hn in H2. lia.
  - intros p. rewrite Hd, Hn. split; [tauto|].
    intros Hp. destruct (Z.lt_ge_cases (dim p) 2); [right | left]; split;
      (assumption || lia).
  - apply filter_split_Permutation. intros p.
    rewrite Z.geb_leb, Z.ltb_antisym. reflexivity.
Qed.

Lemma configure_optimizers_partition_witness :
  map params (param_groups
                (_configure_optimizers (B := toy_backend) toy_config
                   (w_model (toy_world toy_backend 0%nat toy_files))))
  = [ [ {| pid := 1; shape := [8; 4]; requires_grad := true |} ];
      [ {| pid := 2; shape := [4]; requires_grad := true |} ] ].
Proof.
  destruct (configure_optimizers_partition (H := toy_backend) toy_config
              (w_model (toy_world toy_backend 0%nat toy_files)))
    as (decay & nodecay & E & _).
  - apply (bool_decide_unpack _). vm_compute. exact I.
  - reflexivity.
Defined.

(** ** Running statements *)

Section Frames.
Context {St T : Type} (proj : St -> T).

Lemma preserves_ret {A} (a : A) : preserves proj (ret a).
Proof. intros s. reflexivity. Qed.

Lemma preserves_raise {A} (e : exn) : preserves proj (@raise St A e).
Proof. intros s. reflexivity. Qed.

Lemma preserves_lift {A} (r : result A) : preserves proj (lift r).
Proof. intros s. reflexivity. Qed.

Lemma preserves_gets {A} (f : St -> A) : preserves proj (gets f).
Proof. intros s. reflexivity. Qed.

Lemma preserves_bind {A B} (m : M St A) (k : A -> M St B) :
  preserves proj m -> (forall a, preserves proj (k a)) ->
  preserves proj (bind m k).
Proof.
  intros Hm Hk s. unfold bind. specialize (Hm s).
  destruct (m s) as [[a|e] s1]; simpl in *.
  - now rewrite Hk.
  - exact Hm.
Qed.

Lemma preserves_for_each {A B} (body : B -> A -> M St B) (xs : list A) :
  (forall acc x, preserves proj (body acc x)) ->
  forall acc, preserves proj (for_each body acc xs).
Proof.
  intros Hb. induction xs as [|x xs' IH]; intros acc; simpl.
  - apply preserves_ret.
  - apply preserves_bind; [apply Hb | intros acc'; apply IH].
Qed.

End Frames.

Create HintDb frame.

#[local] Hint Resolve preserves_ret preserves_raise preserves_lift
  preserves_gets : frame.

Lemma bind_Ok {St A B} (m : M St A) (k : A -> M St B) s b s' :
  bind m k s = (Ok b, s') ->
  exists a s1, m s = (Ok a, s1) /\ k a s1 = (Ok b, s').
Proof.
  unfold bind. destruct (m s) as [[a|e] s1]; [eauto | discriminate].
Qed.

Lemma bind_Raise {St A B} (m : M St A) (k : A -> M St B) s e s' :
  m s = (Raise e, s') -> bind m k s = (Raise e, s').
Proof. intros E. unfold bind. now rewrite E. Qed.

Lemma bind_step {St A B} (m : M St A) (k : A -> M St B) s a s1 :
  m s = (Ok a, s1) -> bind m k s = k a s1.
Proof. intros E. unfold bind. now rewrite E. Qed.

(** From a sequence that returned, step to its last statement. *)
Ltac bind_last E :=
  repeat (let a := fresh "a" in
          let s := fresh "s" in
          apply bind_Ok in E as (a & s & _ & E)).

(** A loop stops at the first pass that raises. *)
Lemma for_each_raise {St A B} (body : B -> A -> M St B) acc x xs e s s' :
  body acc x s = (Raise e, s') ->
  for_each body acc (x :: xs) s = (Raise e, s').
Proof. intros E. simpl. now apply bind_Raise. Qed.

Section Effects.
Context `{B : Backend}.

Lemma get_batch_stable cfg split : preserves stable (get_batch cfg split).
Proof.
  unfold get_batch.
  apply preserves_bind; [destruct (data_dir cfg); auto with frame|]. intros d.
  apply preserves_bind; [intros w; reflexivity|]. intros data.
  apply preserves_bind.
  { unfold torch_randint.
    destruct (_ <=? 0); [auto with frame|].
    destruct (_ <? 0); [auto with frame|]. intros w; reflexivity. }
  intros ix. repeat (apply preserves_bind; [auto with frame|]; intros ?).
  auto with frame.
Qed.

Lemma model_call_stable X Y : preserves stable (model_call X Y).
Proof. intros w. reflexivity. Qed.

Lemma estimate_split_stable cfg (out : gmap string float) (split : string) :
  preserves stable
    (losses <- lift (torch_zeros (eval_iters cfg)) ;;
     losses <- for_each
                 (fun (losses : list float) (k : Z) =>
                    b <- get_batch cfg split ;;
                    loss <- model_call (fst b) (snd b) ;;
                    ret (<[Z.to_nat k := loss]> losses))
                 losses (range 0 (eval_iters cfg)) ;;
     ret (<[split := tensor_mean losses]> out)).
Proof.
  apply preserves_bind; [auto with frame|]. intros losses.
  apply preserves_bind; [|auto with frame].
  apply preserves_for_each. intros acc k.
  apply preserves_bind; [apply get_batch_stable|]. intros b.
  apply preserves_bind; [apply model_call_stable | auto with frame].
Qed.

(** [estimate_loss] changes nothing but the generator and the mode flag, and
    the flag it leaves behind says whether it returned. *)
Lemma estimate_loss_effect cfg w :
  let r := estimate_loss cfg w in
  w_files (snd r) = w_files w
  /\ w_dirs (snd r) = w_dirs w
  /\ w_trace (snd r) = w_trace w
  /\ weights (w_model (snd r)) = weights (w_model w)
  /\ named_parameters (w_model (snd r)) = named_parameters (w_model w)
  /\ config_seq_length (w_model (snd r)) = config_seq_length (w_model w)
  /\ training (w_model (snd r)) = is_ok (fst r).
Proof.
  unfold estimate_loss.
  match goal with
  | |- context [for_each ?f ∅ ?l] =>
      assert (Hl : preserves stable (for_each f ∅ l))
        by (apply preserves_for_each; intros out split;
            apply estimate_split_stable);
      set (loop := for_each f ∅ l) in *; clearbody loop
  end.
  unfold bind. simpl.
  match goal with
  | |- context [loop ?w1] =>
      specialize (Hl w1); destruct (loop w1) as [[out|e] w2]
  end; simpl in *;
    unfold stable in Hl; inversion Hl as [[Hm Hf Hd Ht]];
    rewrite ?Hm, ?Hf, ?Hd, ?Ht; simpl; repeat split; reflexivity.
Qed.

(** A dictionary that [estimate_loss] returns has both splits. *)
Lemma estimate_loss_keys cfg w out w' :
  estimate_loss cfg w = (Ok out, w') ->
  exists t v, out = <["val" := v]> (<["train" := t]> ∅).
Proof.
  unfold estimate_loss. intros E.
  apply bind_Ok in E as (u & w1 & _ & E).
  apply bind_Ok in E as (out' & w2 & E & E2).
  apply bind_Ok in E2 as (u' & w3 & _ & E2). inversion E2; subst out' w3.
  simpl in E.
  apply bind_Ok in E as (o1 & w4 & E1 & E).
  apply bind_Ok in E as (o2 & w5 & E3 & E). inversion E; subst o2 w5.
  apply bind_Ok in E1 as (l1 & w6 & _ & E1).
  apply bind_Ok in E1 as (l2 & w7 & _ & E1). inversion E1; subst o1 w7.
  apply bind_Ok in E3 as (l3 & w8 & _ & E3).
  apply bind_Ok in E3 as (l4 & w9 & _ & E3). inversion E3; subst.
  eauto.
Qed.

End Effects.

(** ** Evaluation *)

(** C7, as amended. [estimate_loss] runs as from eval mode whatever mode
    the model entered in, and the mode flag it leaves behind is [True] exactly
    when the call returned: training mode is restored on a normal return, and
    when a batch fetch or a forward pass raises, the model stays in eval
    mode. The parameter values are untouched either way. *)
Theorem estimate_loss_mode `{Backend} (cfg : TrainerConfig) (w : World) :
  estimate_loss cfg w = estimate_loss cfg (snd (set_training false w))
  /\ training (w_model (snd (estimate_loss cfg w)))
     = is_ok (fst (estimate_loss cfg w))
  /\ weights (w_model (snd (estimate_loss cfg w))) = weights (w_model w).
Proof.
  split; [reflexivity|].
  pose proof (estimate_loss_effect cfg w) as (_ & _ & _ & Hw & _ & _ & Hmode).
  split; [exact Hmode | exact Hw].
Qed.

(** C7 fails as stated: with [val.bin] missing, fetching the first validation
    batch raises, and the model that entered in training mode is in eval mode
    when the call terminates. *)
Lemma estimate_loss_mode_counterexample :
  let w := toy_world toy_backend 0%nat train_only_files in
  training (w_model w) = true
  /\ fst (estimate_loss toy_config w) = Raise FileNotFoundError
  /\ training (w_model (snd (estimate_loss toy_config w))) = false.
Proof. vm_compute. repeat split; reflexivity. Qed.

Example estimate_loss_returns :
  let w := toy_world toy_backend 1%nat toy_files in
  fst (estimate_loss toy_config w)
  = Ok (<["val" := 2.1%float]> (<["train" := 2.1%float]> ∅))
  /\ training (w_model (snd (estimate_loss toy_config w))) = true.
Proof. vm_compute. split; reflexivity. Qed.

Section Checkpointing.
Context `{B : Backend}.

Lemma saved_app (tr tr' : list Event) :
  saved (tr ++ tr') = (saved tr ++ saved tr')%list.
Proof.
  induction tr as [|[p|p c|r] tr IH]; simpl; [reflexivity| | |];
    now rewrite IH.
Qed.

Lemma do_eval_stages (cfg : TrainerConfig) (optimizer : Optimizer)
    (best tps tpi : float) (iter : Z) (lr : R) :
  do_eval cfg optimizer best tps tpi iter lr
  = (losses <- estimate_loss cfg ;;
     metrics_stage cfg losses tps iter lr ;;;
     val_loss <- lift (dict_get losses "val") ;;
     checkpoint_stage cfg optimizer best val_loss iter ;;;
     report_stage cfg tps tpi iter).
Proof. reflexivity. Qed.

(** The metrics stage either raises and leaves the world alone, or appends
    the record to the trace. *)
Lemma metrics_stage_run (cfg : TrainerConfig) (t v tps : float) (iter : Z)
    (lr : R) (w : World) :
  let record := {| m_iter := iter; m_train_loss := t; m_val_loss := v;
                   m_lr := lr; m_tokens_per_sec := tps |} in
  metrics_stage cfg (<["val" := v]> (<["train" := t]> ∅)) tps iter lr w
  = if wandb_log cfg then
      match wandb_push record with
      | Ok _ => (Ok tt, emit (EvMetrics record) w)
      | Raise e => (Raise e, w)
      end
    else (Ok tt, w).
Proof.
  unfold metrics_stage. destruct (wandb_log cfg); [|reflexivity].
  unfold dict_get. rewrite lookup_insert_eq.
  rewrite lookup_insert_ne by discriminate. rewrite lookup_insert_eq.
  unfold wandb_log_call, bind, lift, modify.
  now destruct (wandb_push _) as [[]|e].
Qed.

(** The checkpoint stage always returns; it writes exactly when the loss
    improves on [best] at an iteration above 0. *)
Lemma checkpoint_stage_run (cfg : TrainerConfig) (optimizer : Optimizer)
    (best v : float) (iter : Z) (w : World) :
  let path := path_join (out_dir cfg) "ckpt.pt" in
  let c := {| ck_model := weights (w_model w);
              ck_optimizer := (param_groups optimizer, opt_state optimizer);
              ck_iter_num := iter; ck_best_val_loss := v |} in
  let r := checkpoint_stage cfg optimizer best v iter w in
  fst r = Ok tt
  /\ w_model (snd r) = w_model w
  /\ if (v <? best)%float && (iter >? 0) then
       w_files (snd r)
       = <[path := pickle (ck_model c) (ck_optimizer c) iter v]> (w_files w)
       /\ saved (w_trace (snd r)) = (saved (w_trace w) ++ [(path, c)])%list
     else
       w_files (snd r) = w_files w
       /\ saved (w_trace (snd r)) = saved (w_trace w).
Proof.
  intros path c r. subst r. unfold checkpoint_stage.
  destruct (v <? best)%float; simpl; [|auto].
  destruct (iter >? 0); simpl; [|auto].
  unfold bind, gets. simpl.
  destruct (path_exists (out_dir cfg) w); simpl;
    rewrite ?saved_app; simpl; rewrite ?app_nil_r; auto.
Qed.

(** The report stage reads the clock and prints. *)
Lemma report_stage_pure (cfg : TrainerConfig) (tps tpi : float) (iter : Z) :
  preserves (fun w : World => w) (report_stage cfg tps tpi iter).
Proof.
  unfold report_stage. apply preserves_bind; [|auto with frame].
  destruct (0 <? tps)%float; [|auto with frame].
  repeat (apply preserves_bind; [auto with frame|]; intros ?).
  auto with frame.
Qed.

End Checkpointing.


Example do_eval_saves_at_250 :
  let w := toy_world toy_backend 1%nat toy_files in
  let opt := _configure_optimizers toy_config (w_model w) in
  let r := do_eval toy_config opt 3 0 0 250 (1 / 10000)%R w in
  fst r = Ok tt
  /\ map (fun pc => (fst pc, ck_iter_num (snd pc), ck_best_val_loss (snd pc)))
       (saved (w_trace (snd r)))
     = [("out/ckpt.pt", 250, 2.1%float)]
  /\ w_files (snd r) !! "out/ckpt.pt" = Some (toy_pickle 250).
Proof. vm_compute. repeat split; reflexivity. Qed.

Example do_eval_skips_at_0 :
  let w := toy_world toy_backend 1%nat toy_files in
  let opt := _configure_optimizers toy_config (w_model w) in
  let r := do_eval toy_config opt 3 0 0 0 (1 / 10000)%R w in
  fst r = Ok tt
  /\ saved (w_trace (snd r)) = []
  /\ w_files (snd r) !! "out/ckpt.pt" = None.
Proof. vm_compute. repeat split; reflexivity. Qed.

(** ** The metrics service *)

Section Sink.
Context `{B : Backend}.


End Sink.



(** ** The best validation loss *)

Section BestValLoss.
Context `{B : Backend}.

Lemma for_each_invariant {St X Acc} (P : Acc -> Prop)
    (body : Acc -> X -> M St Acc) :
  (forall acc x s acc' s', body acc x s = (Ok acc', s') -> P acc -> P acc') ->
  forall xs acc s acc' s',
    for_each body acc xs s = (Ok acc', s') -> P acc -> P acc'.
Proof.
  intros Hb. induction xs as [|x xs' IH]; intros acc s acc' s' E HP.
  - inversion E; subst. exact HP.
  - simpl in E. apply bind_Ok in E as (a & s1 & E1 & E2).
    eapply IH; [exact E2|]. eapply Hb; eauto.
Qed.

(** No pass through the loop body assigns the loop's [best_val_loss]. *)
Lemma train_iter_best_val_loss (cfg : TrainerConfig) (v v' : LoopVars)
    (iter : Z) (w w' : World) :
  train_iter cfg v iter w = (Ok v', w') ->
  best_val_loss v' = best_val_loss v.
Proof.
  unfold train_iter. intros E.
  repeat first
    [ progress bind_last E
    | match type of E with
      | (if ?c then _ else _) _ = _ => destruct c
      end ];
    inversion E; reflexivity.
Qed.

(** The value [do_eval] compares against is the initial sentinel at every
    evaluation of a run. *)
Lemma train_best_val_loss (cfg : TrainerConfig) (v : LoopVars) (w w' : World) :
  train cfg w = (Ok v, w') -> best_val_loss v = 1e9%float.
Proof.
  unfold train. intros E.
  apply bind_Ok in E as (m & w1 & _ & E).
  destruct (negb _); [discriminate|]. bind_last E.
  eapply (for_each_invariant (fun lv => best_val_loss lv = 1e9%float)) in E;
    [exact E | | reflexivity].
  intros lv iter wa lv' wb Hstep Hacc.
  now rewrite (train_iter_best_val_loss _ _ _ _ _ _ Hstep).
Qed.

End BestValLoss.

(** C1 does not hold of the code. In every run the loop's [best_val_loss]
    is still the sentinel [1e9] when [train] returns. On a run of three
    iterations with an evaluation before each step and validation losses 4,
    2.1 and 2.5, the loss 2.1 at iteration 1 is saved, and the loss 2.5 at
    iteration 2, which lies between 2.1 and the sentinel, is saved over
    it. *)
Theorem train_forgets_best_val_loss :
  let r := train toy_config (toy_world toy_backend 0%nat toy_files) in
  (forall (B : Backend) cfg w v w',
     train cfg w = (Ok v, w') -> best_val_loss v = 1e9%float)
  /\ match fst r with
  | Ok v => best_val_loss v = 1e9%float
  | Raise _ => False
  end
  /\ map (fun pc => (fst pc, ck_iter_num (snd pc), ck_best_val_loss (snd pc)))
       (saved (w_trace (snd r)))
     = [("out/ckpt.pt", 1, 2.1%float); ("out/ckpt.pt", 2, 2.5%float)]
  /\ w_files (snd r) !! "out/ckpt.pt" = Some (toy_pickle 2).
Proof.
  split; [intros B cfg w v w'; apply train_best_val_loss|].
  vm_compute. repeat split; reflexivity.
Qed.


(** * Further properties of the trainer *)

(** ** More on the schedule *)


(** X2. With [0 < warmup_iters < lr_decay_iters] and
    [0 <= min_lr <= learning_rate] the schedule rises through the warmup and
    never rises afterwards: for [0 <= it1 <= it2 < warmup_iters] the rate at
    [it1] is at most the rate at [it2], and for [warmup_iters <= it1 <= it2]
    the rate at [it2] is at most the rate at [it1] and at least [min_lr]. *)
Theorem get_lr_rises_then_decays (cfg : TrainerConfig) (it1 it2 : Z)
    (Hw : 0 < warmup_iters cfg)
    (Hstrict : warmup_iters cfg < lr_decay_iters cfg)
    (Hmin : (0 <= min_lr cfg <= learning_rate cfg)%R)
    (H12 : 0 <= it1 <= it2) :
  exists v1 v2,
    get_lr cfg it1 = Ok v1 /\ get_lr cfg it2 = Ok v2
    /\ (it2 < warmup_iters cfg -> (v1 <= v2)%R)
    /\ (warmup_iters cfg <= it1 -> (min_lr cfg <= v2 <= v1)%R).
Proof.
  assert (Hcos : forall it, warmup_iters cfg <= it <= lr_decay_iters cfg ->
            exists r, (0 <= r <= 1)%R
              /\ r = (IZR (it - warmup_iters cfg)
                      / IZR (lr_decay_iters cfg - warmup_iters cfg))%R
              /\ get_lr cfg it
                 = Ok (min_lr cfg + 0.5 * (1 + cos (PI * r))
                                    * (learning_rate cfg - min_lr cfg))%R).
  { intros it Hit.
    exists (IZR (it - warmup_iters cfg)
            / IZR (lr_decay_iters cfg - warmup_iters cfg))%R.
    split; [apply decay_ratio_bounds; lia|].
    split; [reflexivity|]. rewrite get_lr_cosine by lia.
    do 4 f_equal. unfold Rdiv. now rewrite Rmult_assoc. }
  assert (Hpi : (0 < PI)%R) by apply PI_RGT_0.
  destruct (Z.lt_ge_cases it2 (warmup_iters cfg)) as [Hb|Hb].
  - (* both in the warmup *)
    rewrite !get_lr_warmup, !true_div_ok by lia.
    do 2 eexists. split; [reflexivity|]. split; [reflexivity|].
    split; [intros _ | lia].
    assert (Hpos : (0 < IZR (warmup_iters cfg))%R) by (apply IZR_lt; lia).
    assert (Hle : (IZR it1 <= IZR it2)%R) by (apply IZR_le; lia).
    unfold Rdiv. apply Rmult_le_compat_r.
    + left. now apply Rinv_0_lt_compat.
    + apply Rmult_le_compat_l; lra.
  - destruct (Z.lt_ge_cases it1 (warmup_iters cfg)) as [Ha|Ha].
    + (* [it1] in the warmup, [it2] past it: neither conclusion applies *)
      rewrite (get_lr_warmup cfg it1), true_div_ok by lia.
      destruct (get_lr cfg it2) as [v2|e] eqn:E2.
      * do 2 eexists. repeat split; try reflexivity; lia.
      * pose proof (get_lr_returns cfg it2 ltac:(lia) Hstrict) as Hok.
        rewrite E2 in Hok. discriminate.
    + destruct (Z.le_gt_cases it2 (lr_decay_iters cfg)) as [Hc|Hc].
      * (* both on the cosine *)
        destruct (Hcos it1 ltac:(lia)) as (r1 & [Hr1 Hr1'] & Er1 & ->).
        destruct (Hcos it2 ltac:(lia)) as (r2 & [Hr2 Hr2'] & Er2 & ->).
        do 2 eexists. split; [reflexivity|]. split; [reflexivity|].
        split; [lia | intros _].
        assert (Hr : (r1 <= r2)%R).
        { subst r1 r2. unfold Rdiv. apply Rmult_le_compat_r.
          - left. apply Rinv_0_lt_compat, IZR_lt. lia.
          - apply IZR_le. lia. }
        assert (Hc12 : (cos (PI * r2) <= cos (PI * r1))%R)
          by (apply cos_decr_1; nra).
        pose proof (COS_bound (PI * r2)) as [Hlo _].
        nra.
      * destruct (Z.le_gt_cases it1 (lr_decay_iters cfg)) as [Hd|Hd].
        -- (* [it1] on the cosine, [it2] on the plateau *)
           destruct (Hcos it1 ltac:(lia)) as (r1 & _ & _ & ->).
           rewrite (get_lr_plateau cfg it2) by lia.
           do 2 eexists. split; [reflexivity|]. split; [reflexivity|].
           split; [lia | intros _].
           pose proof (COS_bound (PI * r1)) as [Hlo _]. nra.
        -- (* both on the plateau *)
           rewrite !get_lr_plateau by lia.
           do 2 eexists. split; [reflexivity|]. split; [reflexivity|].
           split; [lia | intros _; lra].
Qed.

Lemma get_lr_rises_then_decays_witness :
  exists v1 v2,
    get_lr default_config 200 = Ok v1 /\ get_lr default_config 4000 = Ok v2
    /\ (min_lr default_config <= v2 <= v1)%R.
Proof.
  destruct (get_lr_rises_then_decays default_config 200 4000)
    as (v1 & v2 & E1 & E2 & _ & H).
  - simpl; lia.
  - simpl; lia.
  - simpl; lra.
  - lia.
  - exists v1, v2. split; [exact E1|]. split; [exact E2|].
    apply H. simpl; lia.
Defined.


(** ** Writing the rate into the optimizer *)

(** X3. Whatever [update_lr] does, it leaves every group's parameters, weight
    decay and betas, and the optimizer state, as they were. With [decay_lr]
    on it returns the scheduled rate and every group carries that rate
    afterwards, and it raises exactly when the schedule does; with [decay_lr]
    off it returns [learning_rate] and the optimizer is untouched, also at
    iterations where the schedule would raise. *)
Theorem update_lr_groups `{Backend} (cfg : TrainerConfig) (it : Z)
    (optimizer : Optimizer) :
  match update_lr cfg it optimizer with
  | Ok (lr, optimizer') =>
      opt_state optimizer' = opt_state optimizer
      /\ map params (param_groups optimizer')
         = map params (param_groups optimizer)
      /\ map pg_weight_decay (param_groups optimizer')
         = map pg_weight_decay (param_groups optimizer)
      /\ map pg_betas (param_groups optimizer')
         = map pg_betas (param_groups optimizer)
      /\ if decay_lr cfg then
           get_lr cfg it = Ok lr
           /\ Forall (fun g => pg_lr g = lr) (param_groups optimizer')
         else lr = learning_rate cfg /\ optimizer' = optimizer
  | Raise e => decay_lr cfg = true /\ get_lr cfg it = Raise e
  end.
Proof.
  unfold update_lr. destruct (decay_lr cfg); simpl; [|auto 6].
  destruct (get_lr cfg it) as [lr|e]; [|auto]. simpl.
  rewrite !map_map. simpl. repeat split; try reflexivity.
  apply Forall_map, Forall_forall. intros g _. reflexivity.
Qed.

(** ** More on batches *)

Section BatchEdges.
Context `{B : Backend}.
Variables (cfg : TrainerConfig) (split : string) (w : World).

Local Abbreviation file_of d :=
  (path_join d (if String.eqb split "train" then "train.bin" else "val.bin")).

(** X4. How [get_batch] fails. Without a data directory it raises
    [TypeError]; when the split's file is missing, [FileNotFoundError]; when
    the file is empty or holds an odd number of bytes, [ValueError]; and when
    the corpus has no more tokens than one sequence ([L <= S]),
    [RuntimeError]. In each of these cases nothing was drawn from the
    generator: the world is as before the call. *)
Theorem get_batch_failures :
  (data_dir cfg = None -> get_batch cfg split w = (Raise TypeError, w))
  /\ (forall d, data_dir cfg = Some d ->
        w_files w !! file_of d = None ->
        get_batch cfg split w = (Raise FileNotFoundError, w))
  /\ (forall d bs, data_dir cfg = Some d ->
        w_files w !! file_of d = Some bs ->
        bs = [] \/ Nat.odd (length bs) = true ->
        get_batch cfg split w = (Raise ValueError, w))
  /\ (forall d data, data_dir cfg = Some d ->
        np_memmap_uint16 (w_files w) (file_of d) = Ok data ->
        Z.of_nat (length data) <= seq_length cfg ->
        get_batch cfg split w = (Raise RuntimeError, w)).
Proof.
  split; [|split; [|split]].
  - intros Hd. unfold get_batch, bind. now rewrite Hd.
  - intros d Hd Hf. unfold get_batch, bind. rewrite Hd. simpl.
    unfold np_memmap_uint16. now rewrite Hf.
  - intros d bs Hd Hf Hbad. unfold get_batch, bind. rewrite Hd. simpl.
    unfold np_memmap_uint16. rewrite Hf.
    destruct Hbad as [->|Hodd]; [reflexivity|].
    destruct bs; [reflexivity|]. now rewrite Hodd.
  - intros d data Hd Hm Hshort. unfold get_batch, bind. rewrite Hd. simpl.
    rewrite Hm. unfold torch_randint.
    destruct (Z.leb_spec (Z.of_nat (length data) - seq_length cfg) 0);
      [reflexivity | lia].
Qed.

Lemma get_batch_shape x y w' :
  get_batch cfg split w = (Ok (x, y), w') ->
  cursor (w_gen w') = (cursor (w_gen w) + Z.to_nat (batch_size cfg))%nat
  /\ length x = Z.to_nat (batch_size cfg)
  /\ length y = Z.to_nat (batch_size cfg).
Proof.
  intros E.
  destruct (data_dir cfg) as [d|] eqn:Hd;
    [|unfold get_batch, bind in E; rewrite Hd in E; discriminate].
  destruct (np_memmap_uint16 (w_files w) (file_of d)) as [data|e] eqn:Hm;
    [|unfold get_batch, bind in E; rewrite Hd in E; simpl in E;
      rewrite Hm in E; discriminate].
  destruct (get_batch_Ok cfg split w d data Hd Hm x y w' E)
    as (-> & -> & ->).
  simpl. rewrite !length_map, draw_length. auto.
Qed.

(** X5. [get_batch] reads: whether it returns or raises, the model, the
    files, the directories and the trace are as before, and the generator
    keeps its stream. When it returns, exactly [batch_size] words were
    consumed, and the batch has [batch_size] input rows and as many target
    rows. *)
Theorem get_batch_effect :
  stable (snd (get_batch cfg split w)) = stable w
  /\ stream (w_gen (snd (get_batch cfg split w))) = stream (w_gen w)
  /\ forall x y w',
       get_batch cfg split w = (Ok (x, y), w') ->
       cursor (w_gen w') = (cursor (w_gen w) + Z.to_nat (batch_size cfg))%nat
       /\ length x = Z.to_nat (batch_size cfg)
       /\ length y = Z.to_nat (batch_size cfg).
Proof.
  split; [apply get_batch_stable|]. split.
  - assert (Hs : preserves (fun w : World => stream (w_gen w))
                   (get_batch cfg split)).
    { unfold get_batch.
      apply preserves_bind; [destruct (data_dir cfg); auto with frame|].
      intros d. apply preserves_bind; [intros s; reflexivity|]. intros data.
      apply preserves_bind.
      { unfold torch_randint.
        destruct (_ <=? 0); [auto with frame|].
        destruct (_ <? 0); [auto with frame|]. intros s; reflexivity. }
      intros ix. repeat (apply preserves_bind; [auto with frame|]; intros ?).
      auto with frame. }
    apply Hs.
  - apply get_batch_shape.
Qed.

End BatchEdges.


(** ** More on evaluation *)

Section EvalEdges.
Context `{B : Backend}.

(** Counting: when every pass that returns moves a measure of the state by
    [c], a loop that returns has moved it by [c] per element. *)
Lemma for_each_count {St X Acc} (mu : St -> nat) (c : nat)
    (body : Acc -> X -> M St Acc) :
  (forall acc x s acc' s',
     body acc x s = (Ok acc', s') -> mu s' = (mu s + c)%nat) ->
  forall xs acc s acc' s',
    for_each body acc xs s = (Ok acc', s') ->
    mu s' = (mu s + length xs * c)%nat.
Proof.
  intros Hb. induction xs as [|x xs' IH]; intros acc s acc' s' E.
  - inversion E; subst. simpl. lia.
  - simpl in E. apply bind_Ok in E as (a & s1 & E1 & E2).
    rewrite (IH _ _ _ _ E2), (Hb _ _ _ _ _ E1). simpl. lia.
Qed.

Lemma range_length (lo hi : Z) : length (range lo hi) = Z.to_nat (hi - lo).
Proof. unfold range. now rewrite length_map, length_seq. Qed.

Lemma get_batch_cursor cfg split w b w' :
  get_batch cfg split w = (Ok b, w') ->
  cursor (w_gen w') = (cursor (w_gen w) + Z.to_nat (batch_size cfg))%nat.
Proof.
  destruct b as [x y]. intros E.
  now destruct (get_batch_shape cfg split w x y w' E) as (-> & _).
Qed.

(** X6. With [eval_iters = 0] the loss estimate reads no file and draws
    nothing: it returns the mean of an empty tensor for both splits and
    leaves the model in training mode, even when the data files are missing.
    With [eval_iters < 0] it raises [RuntimeError] before any batch is
    fetched, and the model stays in eval mode. *)
Theorem estimate_loss_without_batches (cfg : TrainerConfig) (w : World) :
  (eval_iters cfg = 0 ->
   estimate_loss cfg w
   = (Ok (<["val" := tensor_mean []]> (<["train" := tensor_mean []]> ∅)),
      snd (set_training true w)))
  /\ (eval_iters cfg < 0 ->
      estimate_loss cfg w = (Raise RuntimeError, snd (set_training false w))).
Proof.
  split; intros H0; unfold estimate_loss.
  - rewrite H0. reflexivity.
  - unfold bind at 1. simpl. unfold bind at 1, bind at 1, lift at 1.
    unfold torch_zeros.
    destruct (Z.ltb_spec (eval_iters cfg) 0); [reflexivity | lia].
Qed.

(** X7. A loss estimate that returns has fetched [eval_iters] batches for
    each of the two splits from the one generator: its cursor has moved by
    [2 * eval_iters * batch_size] words. *)
Theorem estimate_loss_consumes (cfg : TrainerConfig) (w w' : World)
    (out : gmap string float)
    (Hret : estimate_loss cfg w = (Ok out, w')) :
  cursor (w_gen w')
  = (cursor (w_gen w)
     + 2 * (Z.to_nat (eval_iters cfg) * Z.to_nat (batch_size cfg)))%nat.
Proof.
  unfold estimate_loss in Hret.
  apply bind_Ok in Hret as (u & w1 & E0 & E).
  inversion E0; subst u w1. clear E0.
  apply bind_Ok in E as (out' & w2 & E & E2).
  apply bind_Ok in E2 as (u' & w3 & E3 & E2).
  inversion E3; subst u' w3. inversion E2; subst out' w'. clear E2 E3.
  simpl.
  eapply (for_each_count (fun s : World => cursor (w_gen s))
            (Z.to_nat (eval_iters cfg) * Z.to_nat (batch_size cfg))) in E.
  - rewrite E. simpl. lia.
  - intros acc split s acc' s' Es.
    apply bind_Ok in Es as (l0 & s0 & E0 & Es).
    unfold lift in E0. inversion E0; subst s0. clear E0.
    apply bind_Ok in Es as (l1 & s1 & Es & E1).
    inversion E1; subst s'. clear E1.
    eapply (for_each_count (fun s : World => cursor (w_gen s))
              (Z.to_nat (batch_size cfg))) in Es.
    + rewrite Es, range_length. f_equal. f_equal. lia.
    + intros a k sa a' sa' Ek.
      apply bind_Ok in Ek as (b & sb & Eb & Ek).
      apply bind_Ok in Ek as (loss & sc & Ec & Ek).
      inversion Ek; subst sa'. unfold model_call in Ec.
      inversion Ec; subst sc.
      exact (get_batch_cursor _ _ _ _ _ Eb).
Qed.

End EvalEdges.

Lemma estimate_loss_consumes_witness :
  cursor (w_gen (snd (estimate_loss toy_config
                        (toy_world toy_backend 1%nat toy_files))))
  = 4%nat.
Proof.
  assert (Hok : is_ok (fst (estimate_loss toy_config
                              (toy_world toy_backend 1%nat toy_files)))
                = true) by (vm_compute; reflexivity).
  destruct (estimate_loss toy_config (toy_world toy_backend 1%nat toy_files))
    as [[out|e] w'] eqn:E; [|discriminate].
  exact (estimate_loss_consumes (B := toy_backend) toy_config _ _ _ E).
Defined.


(** ** The training loop *)

Section LoopEdges.
Context `{B : Backend}.


(** X9. An evaluation or logging interval of 0 is a division by zero in the
    loop body: with [eval_interval = 0] an iteration raises
    [ZeroDivisionError] right after the rate is set, with no evaluation and
    no forward pass, and an iteration that returns had both intervals
    non-zero. *)
Theorem train_iter_zero_interval (cfg : TrainerConfig) (v : LoopVars)
    (iter : Z) (w : World) :
  (eval_interval cfg = 0 ->
   is_ok (update_lr cfg iter (lv_optimizer v)) = true ->
   train_iter cfg v iter w = (Raise ZeroDivisionError, w))
  /\ (forall v' w', train_iter cfg v iter w = (Ok v', w') ->
        eval_interval cfg <> 0 /\ log_interval cfg <> 0).
Proof.
  split.
  - intros H0 Hlr. unfold train_iter.
    destruct (update_lr cfg iter (lv_optimizer v)); [|discriminate].
    unfold bind, lift. rewrite H0. reflexivity.
  - intros v' w' E. unfold train_iter in E.
    apply bind_Ok in E as (lo & s0 & _ & E).
    apply bind_Ok in E as (r & s1 & Er & E).
    do 5 (let a := fresh "a" in let s := fresh "s" in
          apply bind_Ok in E as (a & s & _ & E)).
    apply bind_Ok in E as (r' & s7 & Er' & _).
    unfold lift, py_mod in Er, Er'.
    destruct (Z.eqb_spec (eval_interval cfg) 0); [discriminate|].
    destruct (Z.eqb_spec (log_interval cfg) 0); [discriminate|].
    auto.
Qed.

(** X10. The throughput smoothing. An iteration that returns and is not a
    logging iteration leaves the running values alone. On a logging
    iteration the measured step time [dt] is non-zero and the sample is
    [tokens * (1 / dt)] with [tokens = batch_size * seq_length]; the first
    sample (running value 0) is taken as it is, together with [dt], and every
    later one is blended as [0.9 * running + 0.1 * sample]. *)
Theorem train_iter_smoothing (cfg : TrainerConfig) (v v' : LoopVars)
    (iter : Z) (w w' : World)
    (Hret : train_iter cfg v iter w = (Ok v', w')) :
  if iter mod log_interval cfg =? 0 then
    exists tokens,
      float_of_int (batch_size cfg * seq_length cfg) = Ok tokens
      /\ (elapsed iter =? 0)%float = false
      /\ let sample := (tokens * (1 / elapsed iter))%float in
         if (running_fwd_bwd_tokens_per_sec v =? 0)%float then
           running_fwd_bwd_tokens_per_sec v' = sample
           /\ running_iter_time v' = elapsed iter
         else
           running_fwd_bwd_tokens_per_sec v'
           = (0.9 * running_fwd_bwd_tokens_per_sec v + 0.1 * sample)%float
           /\ running_iter_time v'
              = (0.9 * running_iter_time v + 0.1 * elapsed iter)%float
  else
    running_fwd_bwd_tokens_per_sec v' = running_fwd_bwd_tokens_per_sec v
    /\ running_iter_time v' = running_iter_time v.
Proof.
  unfold train_iter in Hret.
  do 7 (let a := fresh "a" in let s := fresh "s" in
        apply bind_Ok in Hret as (a & s & _ & Hret)).
  apply bind_Ok in Hret as (r & s7 & Er & E).
  unfold lift, py_mod in Er.
  destruct (log_interval cfg =? 0); [discriminate|].
  inversion Er; subst r s7. clear Er.
  destruct (iter mod log_interval cfg =? 0).
  - destruct (elapsed iter =? 0)%float eqn:Edt; [discriminate|].
    apply bind_Ok in E as (tokens & s8 & Et & E).
    unfold lift in Et. inversion Et as [[Etok Es]].
    exists tokens. split; [exact Etok|]. split; [reflexivity|].
    cbv zeta.
    destruct (running_fwd_bwd_tokens_per_sec v =? 0)%float;
      inversion E; subst; simpl; split; reflexivity.
  - inversion E; subst; simpl. split; reflexivity.
Qed.

End LoopEdges.



Lemma train_iter_smoothing_witness :
  let w := toy_world toy_backend 0%nat toy_files in
  let v := {| lv_X := [[1; 2]]; lv_Y := [[2; 3]];
              lv_optimizer := _configure_optimizers toy_config (w_model w);
              best_val_loss := 1e9; running_fwd_bwd_tokens_per_sec := 0;
              running_iter_time := 0 |} in
  match fst (train_iter toy_config v 0 w) with
  | Ok v' =>
      running_fwd_bwd_tokens_per_sec v' = 8%float
      /\ running_iter_time v' = 0.5%float
  | Raise _ => False
  end.
Proof.
  cbv zeta.
  match goal with
  | |- match fst ?r with _ => _ end =>
      assert (Hok : is_ok (fst r) = true) by (vm_compute; reflexivity);
      destruct r as [[v'|e] w'] eqn:E; [|discriminate]
  end.
  pose proof (train_iter_smoothing (B := toy_backend) _ _ _ _ _ _ E) as H.
  change (0 mod log_interval toy_config =? 0) with true in H.
  cbv iota in H. destruct H as (tokens & Et & _ & Hs).
  vm_compute in Et. inversion Et; subst tokens. clear Et.
  cbv zeta in Hs.
  change (running_fwd_bwd_tokens_per_sec _ =? 0)%float with true in Hs.
  cbv iota in Hs. destruct Hs as [H1 H2]. cbn [fst].
  rewrite H1, H2. split; vm_compute; reflexivity.
Defined.


(** ** What a run touches *)

Section RunFrames.
Context `{B : Backend}.

Lemma preserves_through {St T U A} (f : St -> T) (g : T -> U) (m : M St A) :
  preserves f m -> preserves (fun s => g (f s)) m.
Proof. intros Hm s. now rewrite Hm. Qed.

Lemma stable_outside {A} (m : M World A) :
  preserves stable m -> preserves outside m.
Proof.
  intros Hm s. specialize (Hm s). unfold stable in Hm. unfold outside.
  injection Hm as _ Hf Hd Ht. now rewrite Hf, Hd, Ht.
Qed.

Lemma get_batch_outside cfg split : preserves outside (get_batch cfg split).
Proof. apply stable_outside, get_batch_stable. Qed.

Lemma model_call_outside X Y : preserves outside (model_call X Y).
Proof. intros s. reflexivity. Qed.

Lemma estimate_loss_outside cfg : preserves outside (estimate_loss cfg).
Proof.
  intros s. destruct (estimate_loss_effect cfg s) as (Hf & Hd & Ht & _).
  unfold outside. now rewrite Hf, Hd, Ht.
Qed.

Lemma report_stage_outside cfg tps tpi iter :
  preserves outside (report_stage cfg tps tpi iter).
Proof.
  apply (preserves_through (fun w : World => w) outside),
    report_stage_pure.
Qed.

(** Structural steps of a frame argument. *)
Ltac frame_step :=
  match goal with
  | |- preserves _ (bind _ _) => apply preserves_bind; [|intros ?]
  | |- preserves _ (ret _) => apply preserves_ret
  | |- preserves _ (raise _) => apply preserves_raise
  | |- preserves _ (lift _) => apply preserves_lift
  | |- preserves _ (gets _) => apply preserves_gets
  | |- preserves _ (for_each _ _ _) => apply preserves_for_each; intros ? ?
  | |- preserves _ (if ?c then _ else _) => destruct c
  end.

(** Everything in [train] apart from the metrics call and the checkpoint
    step leaves the outside alone; so a view of the outside that those two
    preserve is preserved by the whole run. *)
Lemma train_preserves {T} (view : World -> T) (cfg : TrainerConfig) :
  (forall w1 w2, outside w1 = outside w2 -> view w1 = view w2) ->
  (forall losses tps iter lr,
     preserves view (metrics_stage cfg losses tps iter lr)) ->
  (forall opt best v iter,
     preserves view (checkpoint_stage cfg opt best v iter)) ->
  preserves view (train cfg).
Proof.
  intros Hview Hmetrics Hckpt.
  assert (Hout : forall A (m : M World A), preserves outside m ->
                                           preserves view m).
  { intros A m Hm s. apply Hview, Hm. }
  assert (Hbatch : forall split, preserves view (get_batch cfg split))
    by (intros; apply Hout, get_batch_outside).
  assert (Hcall : forall X Y, preserves view (model_call X Y))
    by (intros; apply Hout, model_call_outside).
  assert (Hmode : forall b, preserves view (set_training b))
    by (intros b; apply Hout; intros s; reflexivity).
  assert (Heval : forall opt best tps tpi iter lr,
            preserves view (do_eval cfg opt best tps tpi iter lr)).
  { intros. rewrite do_eval_stages. repeat frame_step; auto.
    - apply Hout, estimate_loss_outside.
    - apply Hout, report_stage_outside. }
  unfold train. repeat frame_step; auto.
  - apply Hout. intros s. reflexivity.
  - unfold _init_logging. repeat frame_step.
  - unfold train_iter. repeat frame_step; auto;
      apply Hout; intros s; reflexivity.
Qed.

Lemma logged_app (tr tr' : list Event) :
  logged (tr ++ tr') = (logged tr ++ logged tr')%list.
Proof.
  induction tr as [|[p|p c|r] tr IH]; simpl; [reflexivity| | |];
    now rewrite IH.
Qed.


(** X12. With [wandb_log] off, a run of [train] never reaches the metrics
    service: no record is pushed, whether the run returns or raises. *)
Theorem train_without_wandb_logs_nothing (cfg : TrainerConfig) (w : World)
    (Hoff : wandb_log cfg = false) :
  logged (w_trace (snd (train cfg w))) = logged (w_trace w).
Proof.
  apply (train_preserves (fun w : World => logged (w_trace w))).
  - intros w1 w2 Ho. unfold outside in Ho. inversion Ho. congruence.
  - intros. unfold metrics_stage. rewrite Hoff. apply preserves_ret.
  - intros opt best v iter. unfold checkpoint_stage.
    repeat frame_step;
      try (intros s; unfold os_makedirs, torch_save, modify; simpl;
           rewrite logged_app; simpl; now rewrite app_nil_r).
Qed.

End RunFrames.


Lemma train_without_wandb_logs_nothing_witness :
  logged (w_trace (snd (train toy_config
                          (toy_world toy_backend 0%nat toy_files))))
  = [].
Proof.
  exact (train_without_wandb_logs_nothing (B := toy_backend) toy_config
           (toy_world toy_backend 0%nat toy_files) eq_refl).
Defined.


(** ** The checkpoints of a run *)

Section RunCheckpoints.
Context `{B : Backend}.

Lemma keeps_bind {St A C} (I : St -> Prop) (m : M St A) (k : A -> M St C) :
  keeps I m ->
  (forall a s s', m s = (Ok a, s') -> keeps I (k a)) ->
  keeps I (bind m k).
Proof.
  intros Hm Hk s Hs. unfold bind. specialize (Hm s Hs).
  destruct (m s) as [[a|e] s1] eqn:E; simpl in *.
  - eapply Hk; eauto.
  - exact Hm.
Qed.

Lemma preserves_keeps {St T A} (f : St -> T) (P : T -> Prop) (m : M St A) :
  preserves f m -> keeps (fun s => P (f s)) m.
Proof. intros Hm s Hs. now rewrite Hm. Qed.

(** A loop keeps an invariant of the state when each pass does, for
    accumulators and elements that satisfy what the passes maintain. *)
Lemma keeps_for_each {St X Acc} (I : St -> Prop) (P : Acc -> Prop)
    (Q : X -> Prop) (body : Acc -> X -> M St Acc) :
  (forall acc x, P acc -> Q x -> keeps I (body acc x)) ->
  (forall acc x s acc' s', body acc x s = (Ok acc', s') -> P acc -> P acc') ->
  forall xs acc, Forall Q xs -> P acc -> keeps I (for_each body acc xs).
Proof.
  intros Hb HP. induction xs as [|x xs' IH]; intros acc HQ Hacc; simpl.
  - intros s Hs. exact Hs.
  - apply Forall_cons in HQ as [Hx Hxs].
    apply keeps_bind; [now apply Hb|].
    intros acc' s s' E. apply IH; [assumption|]. eapply HP; eauto.
Qed.

Lemma range_bounds (lo hi k : Z) : k ∈ range lo hi -> lo <= k < hi.
Proof.
  unfold range. intros Hk. apply list_elem_of_In, in_map_iff in Hk
    as (j & <- & Hj).
  apply in_seq in Hj. lia.
Qed.

Abbreviation saved_all P := (fun w : World => Forall P (saved (w_trace w))).

(** An evaluation adds at most one checkpoint, and only one taken at this
    iteration, above 0, with a loss below [best]. *)
Lemma do_eval_keeps (cfg : TrainerConfig) (P : string * Checkpoint -> Prop)
    (opt : Optimizer) (best tps tpi : float) (iter : Z) (lr : R) :
  (forall c, ck_iter_num c = iter -> 0 < iter ->
             (ck_best_val_loss c <? best)%float = true ->
             P (path_join (out_dir cfg) "ckpt.pt", c)) ->
  keeps (saved_all P) (do_eval cfg opt best tps tpi iter lr).
Proof.
  intros HP. rewrite do_eval_stages.
  assert (Hout : forall A (m : M World A),
            preserves outside m -> keeps (saved_all P) m).
  { intros A m Hm s Hs. specialize (Hm s). unfold outside in Hm.
    injection Hm as _ _ Ht. now rewrite Ht. }
  apply keeps_bind; [apply Hout, estimate_loss_outside|]. intros losses _ _ _.
  apply keeps_bind.
  { apply (preserves_keeps (fun w : World => saved (w_trace w)) (Forall P)).
    unfold metrics_stage, wandb_log_call.
    destruct (wandb_log cfg); [|apply preserves_ret].
    repeat (apply preserves_bind; [auto with frame|]; intros ?).
    intros s. unfold modify. simpl. rewrite saved_app. simpl.
    now rewrite app_nil_r. }
  intros _ _ _ _. apply keeps_bind; [apply Hout, preserves_lift|].
  intros v _ _ _. apply keeps_bind; [|intros; apply Hout, report_stage_outside].
  intros s Hs.
  destruct (checkpoint_stage_run cfg opt best v iter s) as (_ & _ & Hif).
  destruct (v <? best)%float eqn:Ev; simpl in Hif.
  - destruct (Z.gtb_spec iter 0); destruct Hif as [_ ->]; [|exact Hs].
    apply Forall_app. split; [exact Hs|]. apply Forall_singleton.
    apply HP; [reflexivity | lia | exact Ev].
  - destruct Hif as [_ ->]. exact Hs.
Qed.

(** X13. Every checkpoint a run of [train] writes is at [out_dir/ckpt.pt],
    carries an iteration number that is above 0, at most [max_iters] and a
    multiple of [eval_interval], and records a validation loss below the
    sentinel [1e9] (so never NaN). This holds of the checkpoints written so
    far also when the run ends in an exception. *)
Theorem train_checkpoints (cfg : TrainerConfig) (w : World)
    (Hfresh : Forall (run_checkpoint cfg) (saved (w_trace w))) :
  Forall (run_checkpoint cfg) (saved (w_trace (snd (train cfg w)))).
Proof.
  revert w Hfresh.
  change (keeps (saved_all (run_checkpoint cfg)) (train cfg)).
  assert (Hout : forall A (m : M World A),
            preserves outside m -> keeps (saved_all (run_checkpoint cfg)) m).
  { intros A m Hm s Hs. specialize (Hm s). unfold outside in Hm.
    injection Hm as _ _ Ht. now rewrite Ht. }
  assert (Hpure : forall A (r : result A),
            keeps (saved_all (run_checkpoint cfg)) (lift r))
    by (intros; apply Hout, preserves_lift).
  unfold train.
  apply keeps_bind; [apply Hout, preserves_gets|]. intros model _ _ _.
  destruct (negb _); [apply Hout, preserves_raise|].
  apply keeps_bind; [apply Hout; intros s; reflexivity|]. intros _ _ _ _.
  apply keeps_bind.
  { unfold _init_logging. destruct (wandb_log cfg);
      [apply Hpure | apply Hout, preserves_ret]. }
  intros _ _ _ _. cbv zeta.
  apply keeps_bind; [apply Hout; intros s; reflexivity|]. intros _ _ _ _.
  apply keeps_bind; [apply Hout, get_batch_outside|]. intros b _ _ _.
  apply (keeps_for_each _ (fun v => best_val_loss v = 1e9%float)
           (fun iter => 0 <= iter <= max_iters cfg)).
  - intros v iter Hbest Hiter. unfold train_iter.
    apply keeps_bind; [apply Hpure|]. intros lo _ _ _.
    apply keeps_bind; [apply Hpure|]. intros r s s' Er.
    unfold lift, py_mod in Er.
    destruct (Z.eqb_spec (eval_interval cfg) 0) as [|Hne]; [discriminate|].
    injection Er as <- _.
    apply keeps_bind.
    { destruct (Z.eqb_spec (iter mod eval_interval cfg) 0) as [Hmod|_];
        [|apply Hout, preserves_ret].
      apply do_eval_keeps. intros c Hc Hpos Hlt.
      rewrite Hbest in Hlt. unfold run_checkpoint. simpl.
      rewrite Hc. repeat split; (assumption || lia). }
    intros _ _ _ _.
    apply keeps_bind; [apply Hout, model_call_outside|]. intros _ _ _ _.
    apply keeps_bind; [apply Hout, get_batch_outside|]. intros b' _ _ _.
    apply keeps_bind; [apply Hout, preserves_gets|]. intros ws _ _ _.
    apply keeps_bind; [apply Hout; intros s0; reflexivity|]. intros _ _ _ _.
    apply keeps_bind; [apply Hpure|]. intros r' _ _ _.
    apply Hout.
    repeat match goal with
           | |- preserves _ (bind _ _) => apply preserves_bind; [|intros ?]
           | |- preserves _ (if ?c then _ else _) => destruct c
           | |- _ => auto with frame
           end.
  - intros v iter s v' s' E Hbest.
    now rewrite (train_iter_best_val_loss _ _ _ _ _ _ E).
  - apply Forall_forall. intros k Hk. apply range_bounds in Hk. lia.
  - reflexivity.
Qed.

End RunCheckpoints.

Lemma train_checkpoints_witness :
  Forall (run_checkpoint toy_config)
    (saved (w_trace (snd (train toy_config
                            (toy_world toy_backend 0%nat toy_files))))).
Proof.
  apply (train_checkpoints (B := toy_backend) toy_config
           (toy_world toy_backend 0%nat toy_files)).
  constructor.
Defined.


(** * Properties of the data preparation *)

Lemma byte_of_value (z : Z) :
  0 <= z < 256 -> Z.of_N (Byte.to_N (byte_of z)) = z.
Proof.
  intros Hz. unfold byte_of.
  destruct (Byte.of_N (Z.to_N z)) as [b|] eqn:E.
  - apply Byte.to_of_N in E. rewrite E. lia.
  - apply Byte.of_N_None_iff in E. lia.
Qed.

Lemma np_array_uint16_Ok (ids arr : list Z) :
  np_array_uint16 ids = Ok arr ->
  arr = ids /\ Forall (fun i => 0 <= i < 65536) ids.
Proof.
  unfold np_array_uint16.
  destruct (forallb _ ids) eqn:E; [|discriminate].
  intros [= <-]. split; [reflexivity|].
  apply Forall_forall. intros i Hi.
  rewrite forallb_forall in E. apply list_elem_of_In, E in Hi. lia.
Qed.

(** Reading back what [tofile] wrote gives the values. *)
Lemma decode_tofile (ids : list Z) :
  Forall (fun i => 0 <= i < 65536) ids ->
  decode_uint16 (tofile_uint16 ids) = ids.
Proof.
  induction 1 as [|i ids Hi _ IH]; [reflexivity|].
  unfold tofile_uint16 in *. simpl. rewrite IH.
  rewrite !byte_of_value.
  - f_equal. pose proof (Z.div_mod i 256). lia.
  - split; [apply Z.div_pos; lia | apply Z.div_lt_upper_bound; lia].
  - apply Z.mod_pos_bound. lia.
Qed.

Lemma tofile_length (ids : list Z) :
  length (tofile_uint16 ids) = (2 * length ids)%nat.
Proof.
  unfold tofile_uint16. induction ids as [|i ids IH]; [reflexivity|].
  simpl. rewrite IH. lia.
Qed.

(** [np.memmap] on a freshly written token file. *)
Lemma memmap_tofile (files : gmap string (list byte)) (p : string)
    (ids : list Z) :
  Forall (fun i => 0 <= i < 65536) ids ->
  np_memmap_uint16 (<[p := tofile_uint16 ids]> files) p
  = match ids with [] => Raise ValueError | _ => Ok ids end.
Proof.
  intros Hr. unfold np_memmap_uint16. rewrite lookup_insert_eq.
  destruct ids as [|i ids']; [reflexivity|].
  pose proof (tofile_length (i :: ids')) as Hl.
  rewrite <- (decode_tofile (i :: ids') Hr) at 2.
  destruct (tofile_uint16 (i :: ids')) as [|b bs] eqn:E; [discriminate|].
  rewrite Hl. replace (Nat.odd (2 * length (i :: ids'))) with false;
    [reflexivity|].
  symmetry. apply Bool.not_true_iff_false. rewrite Nat.odd_spec.
  intros [k Hk]. lia.
Qed.

Lemma append_inj_r (a x y : string) : a +:+ x = a +:+ y -> x = y.
Proof.
  induction a as [|c a IH]; intros E; [exact E|].
  apply IH. now injection E.
Qed.

Lemma bin_paths_differ (here : string) :
  path_join here "train.bin" <> path_join here "val.bin".
Proof.
  unfold path_join. simpl.
  destruct (String.eqb here ""); [discriminate|].
  destruct (ends_with_slash here); intros E; apply append_inj_r in E;
    discriminate.
Qed.

(** What [export_bin] leaves on disk, as [np.memmap] reads it. *)
Lemma export_bin_maps (here : string) (train_ids val_ids : list Z)
    (files files' : gmap string (list byte)) :
  export_bin here train_ids val_ids files = Ok files' ->
  np_memmap_uint16 files' (path_join here "train.bin")
  = match train_ids with [] => Raise ValueError | _ => Ok train_ids end
  /\ np_memmap_uint16 files' (path_join here "val.bin")
     = match val_ids with [] => Raise ValueError | _ => Ok val_ids end
  /\ forall p, p <> path_join here "train.bin" ->
               p <> path_join here "val.bin" ->
               files' !! p = files !! p.
Proof.
  unfold export_bin. intros Hret.
  destruct (np_array_uint16 train_ids) as [ta|] eqn:Et; [|discriminate].
  destruct (np_array_uint16 val_ids) as [va|] eqn:Ev; [|discriminate].
  apply np_array_uint16_Ok in Et as [-> Ht], Ev as [-> Hv].
  injection Hret as <-. split; [|split].
  - unfold np_memmap_uint16.
    rewrite lookup_insert_ne by (apply not_eq_sym, bin_paths_differ).
    pose proof (memmap_tofile files (path_join here "train.bin") _ Ht) as Hm.
    unfold np_memmap_uint16 in Hm. exact Hm.
  - now apply memmap_tofile.
  - intros p Hp1 Hp2. now rewrite !lookup_insert_ne by congruence.
Qed.

Lemma flatten_encode_docs_nil (sp : Tokenizer) (docs : list string) :
  match docs with
  | [] => flatten (encode_docs sp docs) = []
  | _ => flatten (encode_docs sp docs) <> []
  end.
Proof. destruct docs; [reflexivity | discriminate]. Qed.

Lemma memmap_docs (sp : Tokenizer) (docs : list string)
    (r : result (list Z)) :
  r = match flatten (encode_docs sp docs) with
      | [] => Raise ValueError
      | _ => Ok (flatten (encode_docs sp docs))
      end ->
  r = match docs with
      | [] => Raise ValueError
      | _ => Ok (flatten (encode_docs sp docs))
      end.
Proof.
  intros ->. pose proof (flatten_encode_docs_nil sp docs) as H.
  destruct docs; [now rewrite H|]. now destruct (flatten _).
Qed.

(** X14. The token files round-trip. When [prepare.py] returns, mapping
    [train.bin] or [val.bin] the way [get_batch] does gives back exactly the
    token stream of the split, document by document with its [bos] and [eos];
    a split without documents leaves an empty file, which cannot be mapped
    ([ValueError]). No other file is written. *)
Theorem prepare_round_trip (sp : Tokenizer)
    (train_data validation_data : list string) (here : string)
    (files files' : gmap string (list byte))
    (Hret : prepare sp train_data validation_data here files = Ok files') :
  np_memmap_uint16 files' (path_join here "train.bin")
  = match train_data with
    | [] => Raise ValueError
    | _ => Ok (flatten (encode_docs sp train_data))
    end
  /\ np_memmap_uint16 files' (path_join here "val.bin")
     = match validation_data with
       | [] => Raise ValueError
       | _ => Ok (flatten (encode_docs sp validation_data))
       end
  /\ forall p, p <> path_join here "train.bin" ->
               p <> path_join here "val.bin" ->
               files' !! p = files !! p.
Proof.
  unfold prepare in Hret. cbv zeta in Hret.
  apply export_bin_maps in Hret as (Ht & Hv & Hframe).
  split; [|split; [|exact Hframe]]; now apply memmap_docs.
Qed.

Lemma prepare_round_trip_witness :
  np_memmap_uint16
    (<["val.bin" := tofile_uint16 [1; 103; 2]]>
       (<["train.bin" := tofile_uint16 [1; 100; 101; 2; 1; 102; 2]]> ∅))
    "train.bin"
  = Ok [1; 100; 101; 2; 1; 102; 2].
Proof.
  refine (proj1 (prepare_round_trip char_tokenizer ["ab"; "c"] ["d"] "" ∅
                   _ _)).
  reflexivity.
Defined.

(** X15. Preparation and sampling compose: on the files [prepare.py] wrote
    into the trainer's data directory, a training batch is made of windows of
    the concatenated, [bos]/[eos]-delimited token stream of the training
    documents. *)
Theorem prepared_train_batches `{Backend} (sp : Tokenizer)
    (train_data validation_data : list string) (here : string)
    (files : gmap string (list byte)) (cfg : TrainerConfig) (w : World)
    (Hret : prepare sp train_data validation_data here files
            = Ok (w_files w))
    (Hdir : data_dir cfg = Some here)
    (Hseq : 0 <= seq_length cfg)
    (Hlen : Z.of_nat (length (flatten (encode_docs sp train_data)))
            >= seq_length cfg + 1)
    (Hbatch : 0 < batch_size cfg) :
  let tokens := flatten (encode_docs sp train_data) in
  let ix := draw (w_gen w) (Z.of_nat (length tokens) - seq_length cfg)
              (Z.to_nat (batch_size cfg)) in
  fst (get_batch cfg "train" w)
  = Ok (map (fun i => py_slice tokens i (i + seq_length cfg)) ix,
        map (fun i => py_slice tokens (i + 1) (i + 1 + seq_length cfg)) ix).
Proof.
  intros tokens ix. unfold prepare in Hret. cbv zeta in Hret.
  apply export_bin_maps in Hret as (Ht & _ & _).
  assert (Hm : np_memmap_uint16 (w_files w) (path_join here "train.bin")
               = Ok tokens).
  { rewrite Ht. subst ix tokens. revert Hlen.
    destruct (flatten (encode_docs sp train_data)); [simpl; lia|].
    reflexivity. }
  now rewrite (get_batch_run cfg "train" w here tokens Hdir Hm Hseq Hlen Hbatch).
Qed.

Lemma prepared_train_batches_witness :
  fst (get_batch toy_config "train"
         (toy_world toy_backend 0%nat
            (<["data/val.bin" := tofile_uint16 [1; 103; 2]]>
               (<["data/train.bin"
                  := tofile_uint16 [1; 100; 101; 2; 1; 102; 2]]> ∅))))
  = Ok ([[1; 100]; [100; 101]], [[100; 101]; [101; 2]]).
Proof.
  refine (prepared_train_batches (H := toy_backend) char_tokenizer
            ["ab"; "c"] ["d"] "data" ∅ toy_config
            (toy_world toy_backend 0%nat
               (<["data/val.bin" := tofile_uint16 [1; 103; 2]]>
                  (<["data/train.bin"
                     := tofile_uint16 [1; 100; 101; 2; 1; 102; 2]]> ∅)))
            _ _ _ _ _).
  - reflexivity.
  - reflexivity.
  - vm_compute. discriminate.
  - vm_compute. discriminate.
  - reflexivity.
Defined.

(** X16. The token stream of a split keeps every document whole and in
    order: the [i]-th document's tokens, between one [bos] and one [eos],
    stand right after the streams of the documents before it and right before
    those of the documents after it; and the stream has two tokens more per
    document than the tokenizer produced. *)
Theorem encode_docs_blocks (sp : Tokenizer) (docs : list string) :
  length (flatten (encode_docs sp docs))
  = list_sum (map (fun doc => length (sp_encode sp doc) + 2)%nat docs)
  /\ forall (i : nat) doc, docs !! i = Some doc ->
       flatten (encode_docs sp docs)
       = (flatten (encode_docs sp (take i docs))
          ++ [bos_id sp] ++ sp_encode sp doc ++ [eos_id sp]
          ++ flatten (encode_docs sp (drop (S i) docs)))%list.
Proof.
  split.
  - unfold flatten, encode_docs. rewrite length_concat, map_map. f_equal.
    apply map_ext. intros doc. simpl. rewrite length_app. simpl. lia.
  - intros i doc Hi. rewrite <- (take_drop_middle docs i doc Hi) at 1.
    unfold flatten, encode_docs. rewrite map_app, concat_app. simpl.
    now rewrite <- !app_assoc.
Qed.


(** ** The 90/10 split *)

Section Split.

(** [l[:k] + l[k:]] is [l], whatever [k] is. *)
Lemma py_slice_split {A} (l : list A) (k : Z) :
  (py_slice l 0 k ++ py_slice l k (Z.of_nat (length l)))%list = l.
Proof.
  unfold py_slice. set (len := Z.of_nat (length l)).
  assert (H0 : slice_bound len 0 = 0)
    by (unfold slice_bound; simpl; subst len; lia).
  assert (Hl : slice_bound len len = len)
    by (unfold slice_bound; destruct (Z.ltb_spec len 0); subst len; lia).
  rewrite H0, Hl. set (c := slice_bound len k).
  assert (Hc : 0 <= c <= len).
  { subst c. unfold slice_bound. destruct (Z.ltb_spec k 0); subst len; lia. }
  rewrite Z.sub_0_r. change (Z.to_nat 0) with 0%nat. rewrite drop_0.
  rewrite (take_ge (drop _ _)) by (rewrite length_drop; subst len; lia).
  apply take_drop.
Qed.

Lemma comprehension_app {A C} (f : A -> result C) (xs ys : list A) :
  comprehension f (xs ++ ys)
  = match comprehension f xs with
    | Raise e => Raise e
    | Ok xs' =>
        match comprehension f ys with
        | Raise e => Raise e
        | Ok ys' => Ok (xs' ++ ys')%list
        end
    end.
Proof.
  induction xs as [|x xs IH]; simpl.
  - now destruct (comprehension f ys).
  - destruct (f x); [|reflexivity]. rewrite IH.
    destruct (comprehension f xs); [|reflexivity].
    now destruct (comprehension f ys).
Qed.

Lemma comprehension_total {A C} (f : A -> result C) (g : A -> C)
    (xs : list A) :
  Forall (fun x => f x = Ok (g x)) xs -> comprehension f xs = Ok (map g xs).
Proof.
  induction 1 as [|x xs Hx _ IH]; simpl; [reflexivity|].
  now rewrite Hx, IH.
Qed.

Variable docs : list (string * string).
Hypothesis Hkeys : NoDup (map fst docs).

Local Abbreviation value := (doc_of docs).

Lemma dict_lookup_member (k v : string) :
  (k, v) ∈ docs -> dict_lookup docs k = Ok v.
Proof using Hkeys.
  induction docs as [|[k' v'] d IH]; intros Hin.
  - now apply elem_of_nil in Hin.
  - simpl in Hkeys. apply NoDup_cons in Hkeys as [Hk' Hd]. simpl.
    apply elem_of_cons in Hin as [[= -> ->]|Hin].
    + now rewrite String.eqb_refl.
    + destruct (String.eqb_spec k' k) as [->|_]; [|now apply IH].
      exfalso. apply Hk'. apply list_elem_of_fmap. now exists (k, v).
Qed.

Lemma value_of_docs : map value (map fst docs) = map snd docs.
Proof using Hkeys.
  rewrite map_map. apply map_ext_in. intros [k v] Hin. simpl.
  unfold doc_of. now rewrite (dict_lookup_member k v) by now apply list_elem_of_In.
Qed.

Lemma lookup_keys (ks : list string) :
  Forall (fun k => k ∈ map fst docs) ks ->
  comprehension (dict_lookup docs) ks = Ok (map value ks).
Proof using Hkeys.
  intros Hks. apply comprehension_total. eapply Forall_impl; [exact Hks|].
  intros k Hk. simpl in Hk. apply list_elem_of_fmap in Hk as ([k' v] & -> & Hin).
  unfold doc_of. simpl. now rewrite (dict_lookup_member k' v).
Qed.


End Split.



(** ** The model's parameters *)

Section GPTParameters.

Variable cfg : GPTConfig.

Local Abbreviation V := (vocab_size cfg).
Local Abbreviation T := (g_seq_length cfg).
Local Abbreviation n := (n_embed cfg).
Local Abbreviation layers := (Z.to_nat (n_layer cfg)).

Lemma new_parameter_Ok id dims :
  Forall (fun d => 0 <= d) dims -> new_parameter id dims = Ok (tensor id dims).
Proof.
  intros Hd. unfold new_parameter.
  assert (forallb (fun d => 0 <=? d) dims = true) as ->; [|reflexivity].
  apply forallb_forall. intros d Hin. apply Z.leb_le.
  rewrite List.Forall_forall in Hd. now apply Hd.
Qed.

Lemma Block_init_eq i :
  0 <= n -> nn_Dropout (dropout cfg) = Ok tt ->
  Block_init cfg i
  = if n_head cfg =? 0 then Raise ZeroDivisionError
    else if negb (n mod n_head cfg =? 0) then Raise AssertionError
    else Ok (block_parameters n i).
Proof.
  intros Hn Hdrop.
  unfold Block_init, CausalSelfAttention_init, MLP_init, nn_LayerNorm,
    nn_Linear, py_mod.
  rewrite !new_parameter_Ok by (repeat constructor; lia).
  rewrite Hdrop. simpl.
  destruct (n_head cfg =? 0); [reflexivity|]. simpl.
  destruct (n mod n_head cfg =? 0); reflexivity.
Qed.

Lemma blocks_Ok first count :
  0 <= n -> nn_Dropout (dropout cfg) = Ok tt ->
  n_head cfg <> 0 -> n mod n_head cfg = 0 ->
  comprehension
    (fun i => block <~ Block_init cfg i ;; Ok (under (str i) block))
    (seq first count)
  = Ok (map (fun i => under (str i) (block_parameters n i)) (seq first count)).
Proof.
  intros Hn Hdrop Hh Hm. apply comprehension_total.
  apply List.Forall_forall. intros i _.
  rewrite Block_init_eq by assumption.
  apply Z.eqb_neq in Hh. rewrite Hh, Hm. reflexivity.
Qed.

Lemma GPT_init_eq :
  GPT_init cfg
  = if negb ((0 <=? V) && (0 <=? n) && (0 <=? T)) then Raise RuntimeError
    else
      match nn_Dropout (dropout cfg) with
      | Raise e => Raise e
      | Ok _ =>
          if n_layer cfg <=? 0 then Ok (gpt_parameters cfg)
          else if n_head cfg =? 0 then Raise ZeroDivisionError
          else if negb (n mod n_head cfg =? 0) then Raise AssertionError
          else Ok (gpt_parameters cfg)
      end.
Proof.
  unfold GPT_init, nn_Embedding, nn_LayerNorm, nn_Linear, new_parameter.
  unfold gpt_parameters, transformer_parameters, layer_parameters.
  simpl forallb. rewrite !andb_true_r.
  destruct (0 <=? V) eqn:HV; [|reflexivity].
  destruct (0 <=? n) eqn:Hn; [|reflexivity]. simpl.
  destruct (0 <=? T) eqn:HT; [|reflexivity]. simpl.
  destruct (nn_Dropout (dropout cfg)) as [[]|e] eqn:Hdrop; [|reflexivity].
  simpl. apply Z.leb_le in Hn.
  destruct (n_layer cfg <=? 0) eqn:HL.
  - apply Z.leb_le in HL.
    replace layers with 0%nat by lia. reflexivity.
  - apply Z.leb_gt in HL.
    destruct (n_head cfg =? 0) eqn:Hh.
    { destruct layers as [|k] eqn:Ek; [lia|]. simpl.
      rewrite Block_init_eq by assumption. rewrite Hh. reflexivity. }
    destruct (n mod n_head cfg =? 0) eqn:Hm.
    2:{ destruct layers as [|k] eqn:Ek; [lia|]. simpl.
        rewrite Block_init_eq by assumption. rewrite Hh, Hm. reflexivity. }
    simpl. apply Z.eqb_neq in Hh. apply Z.eqb_eq in Hm.
    rewrite blocks_Ok by assumption. reflexivity.
Qed.

(** *** What the registry holds *)

Lemma total_app ps qs : total (ps ++ qs) = total ps + total qs.
Proof.
  induction ps as [|p ps IH]; [reflexivity|].
  change (numel (snd p) + total (ps ++ qs) = numel (snd p) + total ps + total qs).
  rewrite IH. lia.
Qed.

Lemma under_snd prefix ps : map snd (under prefix ps) = map snd ps.
Proof. unfold under. rewrite map_map. reflexivity. Qed.

Lemma under_fst prefix ps :
  map fst (under prefix ps)
  = map (fun s => prefix +:+ "." +:+ s) (map fst ps).
Proof. unfold under. rewrite !map_map. reflexivity. Qed.

Lemma under_app prefix ps qs :
  under prefix (ps ++ qs) = (under prefix ps ++ under prefix qs)%list.
Proof. apply map_app. Qed.

Lemma total_under prefix ps : total (under prefix ps) = total ps.
Proof. unfold total, under. now rewrite map_map. Qed.

Lemma layer_parameters_S m first count :
  layer_parameters m first (S count)
  = (under (str first) (block_parameters m first)
     ++ layer_parameters m (S first) count)%list.
Proof. reflexivity. Qed.

Lemma layer_pids m first count :
  map (fun np => pid (snd np)) (layer_parameters m first count)
  = map Pos.of_nat (seq (3 + 6 * first) (6 * count)).
Proof.
  revert first. induction count as [|k IH]; intros first.
  - now rewrite Nat.mul_0_r.
  - rewrite layer_parameters_S, map_app, IH.
    replace (6 * S k)%nat with (6 + 6 * k)%nat by lia.
    rewrite seq_app, map_app. f_equal.
    + cbn [map under block_parameters snd pid tensor seq]. unfold block_pid.
      repeat (f_equal; try lia).
    + f_equal. f_equal. lia.
Qed.

Lemma layer_total m first count :
  total (layer_parameters m first count)
  = Z.of_nat count * (12 * m * m + 2 * m).
Proof.
  revert first. induction count as [|k IH]; intros first.
  - reflexivity.
  - rewrite layer_parameters_S, total_app, total_under, IH.
    unfold total, numel. simpl. lia.
Qed.

(** *** Names *)

Lemma before_dot_uint d s :
  before_dot (NilEmpty.string_of_uint d +:+ "." +:+ s)
  = NilEmpty.string_of_uint d.
Proof. induction d; simpl; [reflexivity|now rewrite IHd ..]. Qed.

Lemma str_inj i j : str i = str j -> i = j.
Proof.
  unfold str. intros Heq.
  assert (Hu : Some (Nat.to_uint i) = Some (Nat.to_uint j))
    by (rewrite <- !NilEmpty.usu; now rewrite Heq).
  injection Hu as Hu.
  rewrite <- (Unsigned.of_to i), <- (Unsigned.of_to j). now rewrite Hu.
Qed.

Lemma append_inj prefix s t : prefix +:+ s = prefix +:+ t -> s = t.
Proof.
  induction prefix as [|c prefix IH]; simpl; [easy|].
  intros Heq. injection Heq as Heq. auto.
Qed.

Lemma append_String c s t : String c s +:+ t = String c (s +:+ t).
Proof. reflexivity. Qed.

Lemma append_Empty t : "" +:+ t = t.
Proof. reflexivity. Qed.

Ltac spell :=
  repeat (rewrite append_String in * || rewrite append_Empty in * ).

Lemma under_NoDup prefix (ps : list (string * Param)) :
  NoDup (map fst ps) -> NoDup (map fst (under prefix ps)).
Proof.
  intros Hnd. rewrite under_fst. apply NoDup_fmap_2_strong; [|exact Hnd].
  intros s t _ _ Heq. now do 2 apply append_inj in Heq.
Qed.

Lemma block_name_key m (i : nat) x :
  x ∈ map fst (under (str i) (block_parameters m i)) -> before_dot x = str i.
Proof.
  rewrite under_fst. intros Hin.
  apply list_elem_of_fmap in Hin as (s & -> & _).
  apply before_dot_uint.
Qed.

Lemma layer_name_key m first count x :
  x ∈ map fst (layer_parameters m first count) ->
  exists j, (first <= j < first + count)%nat /\ before_dot x = str j.
Proof.
  revert first. induction count as [|k IH]; intros first Hin.
  - simpl in Hin. inversion Hin.
  - rewrite layer_parameters_S, map_app in Hin.
    apply elem_of_app in Hin as [Hin|Hin].
    + exists first. split; [lia|]. eapply block_name_key, Hin.
    + apply IH in Hin as (j & Hj & Hk). exists j. split; [lia|exact Hk].
Qed.

Lemma layer_names_NoDup m first count :
  NoDup (map fst (layer_parameters m first count)).
Proof.
  revert first. induction count as [|k IH]; intros first.
  - constructor.
  - rewrite layer_parameters_S, map_app. apply NoDup_app.
    split; [|split; [|apply IH]].
    + apply under_NoDup. simpl.
      apply (bool_decide_unpack _). vm_compute. reflexivity.
    + intros x Hx Hrest.
      apply block_name_key in Hx.
      apply layer_name_key in Hrest as (j & Hj & Hk).
      rewrite Hx in Hk. apply str_inj in Hk. lia.
Qed.

Lemma transformer_names_NoDup : NoDup (map fst (transformer_parameters cfg)).
Proof.
  unfold transformer_parameters. apply under_NoDup.
  rewrite !map_app, under_fst. simpl.
  repeat apply NoDup_cons_2.
  - intros Hin. apply elem_of_cons in Hin as [Hin|Hin]; [discriminate|].
    apply elem_of_app in Hin as [Hin|Hin].
    + apply list_elem_of_fmap in Hin as (s & Heq & _). spell. discriminate.
    + apply list_elem_of_singleton in Hin. discriminate.
  - intros Hin. apply elem_of_app in Hin as [Hin|Hin].
    + apply list_elem_of_fmap in Hin as (s & Heq & _). spell. discriminate.
    + apply list_elem_of_singleton in Hin. discriminate.
  - apply NoDup_app. split; [|split].
    + apply NoDup_fmap_2_strong; [|apply layer_names_NoDup].
      intros s t _ _ Heq. now do 2 apply append_inj in Heq.
    + intros x Hin Hl. apply list_elem_of_singleton in Hl. subst x.
      apply list_elem_of_fmap in Hin as (s & Heq & _). spell. discriminate.
    + apply NoDup_singleton.
Qed.

(** *** Identities *)

Lemma transformer_pids :
  map (fun np => pid (snd np)) (transformer_parameters cfg)
  = map Pos.of_nat
      ([(4 + 6 * layers)%nat; 2%nat] ++ seq 3 (6 * layers)
       ++ [(3 + 6 * layers)%nat])%list.
Proof.
  unfold transformer_parameters.
  rewrite <- (map_map snd pid), under_snd, !map_app, under_snd.
  rewrite !(map_map snd pid), layer_pids. simpl.
  unfold block_pid. repeat f_equal; lia.
Qed.

Lemma transformer_pids_NoDup :
  NoDup (map (fun np => pid (snd np)) (transformer_parameters cfg)).
Proof.
  rewrite transformer_pids. apply NoDup_fmap_2_strong.
  - intros x y Hx Hy. apply Nat2Pos.inj.
    + intros ->. revert Hx. rewrite elem_of_app, elem_of_cons, elem_of_app,
        !list_elem_of_singleton, elem_of_seq. lia.
    + intros ->. revert Hy. rewrite elem_of_app, elem_of_cons, elem_of_app,
        !list_elem_of_singleton, elem_of_seq. lia.
  - simpl. repeat apply NoDup_cons_2.
    + rewrite elem_of_cons, elem_of_app, list_elem_of_singleton, elem_of_seq.
      lia.
    + rewrite elem_of_app, list_elem_of_singleton, elem_of_seq. lia.
    + apply NoDup_app. split; [apply NoDup_seq|split; [|apply NoDup_singleton]].
      intros x Hx Hl. apply list_elem_of_singleton in Hl.
      apply elem_of_seq in Hx. lia.
Qed.

Lemma remove_duplicate_tied (ps : list (string * Param)) :
  forall seen name q,
    NoDup (map (fun np => pid (snd np)) ps) ->
    (forall np, np ∈ ps -> pid (snd np) ∉ seen) ->
    pid q ∈ (seen ++ map (fun np => pid (snd np)) ps)%list ->
    remove_duplicate seen (ps ++ [(name, q)]) = ps.
Proof.
  induction ps as [|[nm p] ps IH]; intros seen name q Hnd Hfresh Hq.
  - simpl in *. rewrite app_nil_r in Hq.
    now rewrite bool_decide_eq_true_2.
  - simpl in *. apply NoDup_cons in Hnd as [Hp Hnd].
    rewrite bool_decide_eq_false_2
      by (apply (Hfresh (nm, p)); apply elem_of_cons; now left).
    f_equal. apply IH; [exact Hnd| |].
    + intros np Hin Hseen. apply elem_of_cons in Hseen as [Heq|Hseen].
      * apply Hp. rewrite <- Heq.
        apply list_elem_of_fmap. exists np. split; [reflexivity|exact Hin].
      * apply (Hfresh np); [apply elem_of_cons; now right|exact Hseen].
    + apply elem_of_app in Hq as [Hq|Hq].
      * apply elem_of_app. left. apply elem_of_cons. now right.
      * apply elem_of_cons in Hq as [Hq|Hq].
        -- apply elem_of_app. left. apply elem_of_cons. now left.
        -- apply elem_of_app. now right.
Qed.

Lemma gpt_named_parameters_eq :
  gpt_named_parameters (gpt_parameters cfg) = transformer_parameters cfg.
Proof.
  unfold gpt_named_parameters, gpt_parameters.
  apply remove_duplicate_tied.
  - apply transformer_pids_NoDup.
  - intros np _ Hin. inversion Hin.
  - rewrite app_nil_l, transformer_pids. simpl. unfold block_pid.
    apply elem_of_cons. left. f_equal. lia.
Qed.

Lemma GPT_init_Ok ps : GPT_init cfg = Ok ps -> ps = gpt_parameters cfg.
Proof.
  rewrite GPT_init_eq. intros Heq.
  repeat match type of Heq with
         | (if ?b then _ else _) = _ => destruct b
         | match ?r with Ok _ => _ | Raise _ => _ end = _ => destruct r
         end; congruence.
Qed.

Lemma dropout_raises e : nn_Dropout (dropout cfg) = Raise e -> e = ValueError.
Proof. unfold nn_Dropout. destruct (_ || _); congruence. Qed.

Lemma dropout_value u : nn_Dropout (dropout cfg) = Ok u ->
  ((dropout cfg <? 0) || (1 <? dropout cfg))%float = false.
Proof. unfold nn_Dropout. destruct (_ || _); congruence. Qed.


Lemma transformer_total :
  total (transformer_parameters cfg)
  = V * n + T * n + Z.of_nat layers * (12 * n * n + 2 * n) + n.
Proof.
  unfold transformer_parameters.
  rewrite total_under, !total_app, total_under, layer_total.
  unfold total, numel. simpl. lia.
Qed.

Lemma lookup_wpe :
  dict_lookup (gpt_parameters cfg) "transformer.wpe.weight"
  = Ok (tensor 2 [T; n]).
Proof. reflexivity. Qed.

(** X19. For a model that was built, [get_num_params(non_embedding=False)]
    counts every tensor once, the tied token embedding included once:
    [V*n + T*n + L*(12*n*n + 2*n) + n] for vocabulary [V], sequence length
    [T], width [n] and [L] layers; the default call leaves the position
    embedding's [T*n] out of it. *)
Theorem get_num_params_formula ps (Hbuilt : GPT_init cfg = Ok ps) :
  let L := Z.max 0 (n_layer cfg) in
  get_num_params ps false
  = Ok (V * n + T * n + L * (12 * n * n + 2 * n) + n)
  /\ get_num_params ps true = Ok (V * n + L * (12 * n * n + 2 * n) + n).
Proof.
  apply GPT_init_Ok in Hbuilt. subst ps. intros L.
  unfold get_num_params.
  fold (total (gpt_named_parameters (gpt_parameters cfg))).
  rewrite gpt_named_parameters_eq, transformer_total, lookup_wpe.
  replace (Z.of_nat layers) with L by (unfold L; lia).
  split; [reflexivity|]. unfold result_bind, numel.
  cbn [fold_right shape tensor]. f_equal. lia.
Qed.

(** X20. For a model that was built, [named_parameters()] is the registry
    without its last entry [lm_head.weight], whose tensor is the one listed
    first as [transformer.wte.weight] (the weight tying); the names it lists
    are distinct, and so are the tensors. *)
Theorem gpt_named_parameters_tied ps (Hbuilt : GPT_init cfg = Ok ps) :
  exists w,
    ps = (gpt_named_parameters ps ++ [("lm_head.weight", w)])%list
    /\ hd_error (gpt_named_parameters ps) = Some ("transformer.wte.weight", w)
    /\ shape w = [V; n]
    /\ NoDup (map fst (gpt_named_parameters ps))
    /\ NoDup (map (fun np => pid (snd np)) (gpt_named_parameters ps)).
Proof.
  apply GPT_init_Ok in Hbuilt. subst ps.
  exists (tensor (block_pid layers 1) [V; n]).
  rewrite gpt_named_parameters_eq.
  split; [reflexivity|]. split; [reflexivity|]. split; [reflexivity|].
  split; [apply transformer_names_NoDup|apply transformer_pids_NoDup].
Qed.

End GPTParameters.

Lemma get_num_params_formula_witness :
  get_num_params (gpt_parameters default_gpt_config) false
  = Ok (8192 * 384 + 1024 * 384 + 6 * (12 * 384 * 384 + 2 * 384) + 384)
  /\ get_num_params (gpt_parameters default_gpt_config) true
     = Ok (8192 * 384 + 6 * (12 * 384 * 384 + 2 * 384) + 384).
Proof.
  apply (get_num_params_formula default_gpt_config). vm_compute. reflexivity.
Defined.

Lemma gpt_named_parameters_tied_witness :
  exists w,
    gpt_parameters default_gpt_config
    = (gpt_named_parameters (gpt_parameters default_gpt_config)
       ++ [("lm_head.weight", w)])%list
    /\ hd_error (gpt_named_parameters (gpt_parameters default_gpt_config))
       = Some ("transformer.wte.weight", w)
    /\ shape w = [8192; 384]
    /\ NoDup (map fst (gpt_named_parameters (gpt_parameters default_gpt_config)))
    /\ NoDup (map (fun np => pid (snd np))
                (gpt_named_parameters (gpt_parameters default_gpt_config))).
Proof.
  apply (gpt_named_parameters_tied default_gpt_config). vm_compute.
  reflexivity.
Defined.

(** ** The optimizer's groups on the model *)

Section GPTOptimizer.

Context `{Backend}.

Variable tcfg : TrainerConfig.
Variable cfg : GPTConfig.

Local Abbreviation V := (vocab_size cfg).
Local Abbreviation T := (g_seq_length cfg).
Local Abbreviation n := (n_embed cfg).
Local Abbreviation layers := (Z.to_nat (n_layer cfg)).

Local Abbreviation decayed ts :=
  (List.filter (fun p => dim p >=? 2) (List.filter requires_grad ts)).
Local Abbreviation undecayed ts :=
  (List.filter (fun p => dim p <? 2) (List.filter requires_grad ts)).

Lemma numels_app ts us : numels (ts ++ us) = numels ts + numels us.
Proof.
  induction ts as [|t ts IH]; [reflexivity|].
  change (numel t + numels (ts ++ us) = numel t + numels ts + numels us).
  rewrite IH. lia.
Qed.

Lemma layer_groups m first count :
  let ts := map snd (layer_parameters m first count) in
  length (decayed ts) = (4 * count)%nat
  /\ numels (decayed ts) = Z.of_nat count * (12 * m * m)
  /\ length (undecayed ts) = (2 * count)%nat
  /\ numels (undecayed ts) = Z.of_nat count * (2 * m).
Proof.
  revert first. induction count as [|k IH]; intros first.
  - now repeat split.
  - specialize (IH (S first)). cbv zeta in IH |- *.
    destruct IH as (IH1 & IH2 & IH3 & IH4).
    rewrite layer_parameters_S, map_app, under_snd, !List.filter_app.
    rewrite !length_app, !numels_app, IH1, IH2, IH3, IH4.
    change (decayed (map snd (block_parameters m first)))
      with [tensor (block_pid first 1) [3 * m; m];
            tensor (block_pid first 2) [m; m];
            tensor (block_pid first 4) [m * 4; m];
            tensor (block_pid first 5) [m; m * 4]].
    change (undecayed (map snd (block_parameters m first)))
      with [tensor (block_pid first 0) [m]; tensor (block_pid first 3) [m]].
    unfold numels, numel. cbn [length map fold_right shape tensor].
    repeat split; lia.
Qed.

(** X21. On a model that was built, the optimizer's decayed group holds the
    two embeddings and the four matrices of every block, [2 + 4*L] tensors of
    [V*n + T*n + 12*L*n*n] elements, and the other group the layer norms,
    [1 + 2*L] tensors of [(2*L + 1)*n] elements: the figures the two
    diagnostic lines report. The tied head weight is counted once. *)
Theorem gpt_optimizer_groups ps (model : Module_)
    (Hbuilt : GPT_init cfg = Ok ps)
    (Hmodel : named_parameters model = gpt_named_parameters ps) :
  let L := Z.max 0 (n_layer cfg) in
  let groups := map params (param_groups (_configure_optimizers tcfg model)) in
  map (fun g => Z.of_nat (length g)) groups = [2 + 4 * L; 1 + 2 * L]
  /\ map numels groups
     = [V * n + T * n + L * (12 * n * n); (2 * L + 1) * n].
Proof.
  apply GPT_init_Ok in Hbuilt. subst ps.
  rewrite gpt_named_parameters_eq in Hmodel.
  intros L groups. subst groups. unfold _configure_optimizers.
  cbn [param_groups map params]. rewrite Hmodel.
  rewrite dict_of_distinct by apply transformer_names_NoDup.
  rewrite !(filter_snd (fun p => dim p >=? 2)),
    !(filter_snd (fun p => dim p <? 2)), !(filter_snd requires_grad).
  unfold transformer_parameters.
  rewrite under_snd, !map_app, under_snd, !List.filter_app.
  rewrite !length_app, !numels_app.
  destruct (layer_groups n 0 layers) as (H1 & H2 & H3 & H4).
  rewrite H1, H2, H3, H4.
  cbn [map snd].
  change (decayed [tensor (block_pid layers 1) [V; n]; tensor 2 [T; n]])
    with [tensor (block_pid layers 1) [V; n]; tensor 2 [T; n]].
  change (undecayed [tensor (block_pid layers 1) [V; n]; tensor 2 [T; n]])
    with (@nil Param).
  change (decayed [tensor (block_pid layers 0) [n]]) with (@nil Param).
  change (undecayed [tensor (block_pid layers 0) [n]])
    with [tensor (block_pid layers 0) [n]].
  unfold numels, numel. cbn [length map fold_right shape tensor].
  unfold L. split; repeat f_equal; lia.
Qed.

End GPTOptimizer.

Lemma gpt_optimizer_groups_witness :
  map (fun g => Z.of_nat (length g))
    (map params
       (param_groups
          (_configure_optimizers default_config (gpt_module 0%nat))))
  = [2 + 4 * 6; 1 + 2 * 6]
  /\ map numels
       (map params
          (param_groups
             (_configure_optimizers default_config (gpt_module 0%nat))))
     = [8192 * 384 + 1024 * 384 + 6 * (12 * 384 * 384); (2 * 6 + 1) * 384].
Proof.
  apply (gpt_optimizer_groups (H := toy_backend) default_config
           default_gpt_config (gpt_parameters default_gpt_config)
           (gpt_module 0%nat)).
  - vm_compute. reflexivity.
  - reflexivity.
Defined.
